(** * Markdown preview extension and view-model value classes

    A shallow embedding of the Markdown preview extension
    (activation listeners, preview URI derivation, the debounced
    [update] of [MDDocumentContentProvider], front-matter stripping,
    the [highlight] callback, [fixHref], [showPreview] telemetry) and of
    the [ViewModelDecoration] value class of the editor view model. *)

From Stdlib Require Import List NArith Bool String Ascii Arith Lia.
From Stdlib Require Import DecimalString.
Import ListNotations.

Local Open Scope string_scope.

(** ** The host's [vscode.Uri] *)

Module Uri.

(** The five components a [vscode.Uri] exposes as fields. *)
Record t : Type := mk {
  scheme : string;
  authority : string;
  path : string;
  query : string;
  fragment : string
}.

(** The argument object of [Uri.with]: every component is optional. *)
Record change : Type := mkChange {
  c_scheme : option string;
  c_authority : option string;
  c_path : option string;
  c_query : option string;
  c_fragment : option string
}.

Definition or_else (o : option string) (d : string) : string :=
  match o with
  | Some s => s
  | None => d
  end.

(** Modelled from the spec: [vscode.Uri.with] is host code outside the
    excerpt; the derived key keeps every component that the change object
    does not name and takes the named ones from it. *)
Definition with_ (u : t) (c : change) : t :=
  {| scheme := or_else (c_scheme c) (scheme u);
     authority := or_else (c_authority c) (authority u);
     path := or_else (c_path c) (path u);
     query := or_else (c_query c) (query u);
     fragment := or_else (c_fragment c) (fragment u) |}.

End Uri.

(** JavaScript truthiness of a string and of a possibly undefined string. *)
Definition truthy (s : string) : bool :=
  negb (String.eqb s EmptyString).

Definition truthy_opt (o : option string) : bool :=
  match o with
  | Some s => truthy s
  | None => false
  end.

(** ** Refresh invalidation: [MDDocumentContentProvider.update] *)

Module Debounce.

(** The part of the provider that [update] and its timer callback touch:
    the [_waiting] flag and the events fired on [_onDidChange], oldest
    first. *)
Record Provider : Type := mkProvider {
  _waiting : bool;
  _onDidChange : list Uri.t
}.

(** The closure handed to [setTimeout]; it captures the [uri] argument of
    the call of [update] that created it. *)
Inductive callback : Type :=
| FireChange (uri : Uri.t).

(** A pending one-shot timer: its deadline and its callback. *)
Definition timer : Type := (N * callback)%type.

(** The provider together with the host's clock and timer queue.  The
    queue is kept in firing order: by deadline, and by creation among
    equal deadlines. *)
Record World : Type := mkWorld {
  provider : Provider;
  timers : list timer;
  now : N
}.

(** The constructor sets [_waiting] to false; no event has fired and no
    timer is pending. *)
Definition create (t0 : N) : World :=
  {| provider := {| _waiting := false; _onDidChange := [] |};
     timers := [];
     now := t0 |}.

Fixpoint enqueue (x : timer) (q : list timer) : list timer :=
  match q with
  | [] => [x]
  | y :: q' => if (fst x <? fst y)%N then x :: q else y :: enqueue x q'
  end.

(** [setTimeout(cb, delay)]. *)
Definition setTimeout (cb : callback) (delay : N) (w : World) : World :=
  {| provider := provider w;
     timers := enqueue ((now w + delay)%N, cb) (timers w);
     now := now w |}.

(** The body of the arrow function: clear the flag, fire the event. *)
Definition run_callback (cb : callback) (p : Provider) : Provider :=
  match cb with
  | FireChange uri =>
      {| _waiting := false; _onDidChange := _onDidChange p ++ [uri] |}
  end.

Definition set_waiting (b : bool) (w : World) : World :=
  {| provider := {| _waiting := b;
                    _onDidChange := _onDidChange (provider w) |};
     timers := timers w;
     now := now w |}.

(** [update(uri)]. *)
Definition update (uri : Uri.t) (w : World) : World :=
  if negb (_waiting (provider w)) then
    setTimeout (FireChange uri) 300 (set_waiting true w)
  else w.

(** The host runs, in queue order, every timer whose deadline has been
    reached at time [t]; the callbacks of this program arm no timer. *)
Fixpoint run_due (t : N) (q : list timer) (p : Provider)
  : list timer * Provider :=
  match q with
  | [] => ([], p)
  | (deadline, cb) :: q' =>
      if (deadline <=? t)%N then run_due t q' (run_callback cb p)
      else (q, p)
  end.

(** Time passes by [d] units, and the host's event loop runs what is due. *)
Definition sleep (d : N) (w : World) : World :=
  let t := (now w + d)%N in
  let '(q, p) := run_due t (timers w) (provider w) in
  {| provider := p; timers := q; now := t |}.

Inductive event : Type :=
| Update (uri : Uri.t)
| Sleep (d : N).

Definition step (e : event) (w : World) : World :=
  match e with
  | Update uri => update uri w
  | Sleep d => sleep d w
  end.

Definition run (es : list event) (w : World) : World :=
  fold_left (fun w e => step e w) es w.

(** Total time that passes during a sequence of events. *)
Fixpoint elapsed (es : list event) : N :=
  match es with
  | [] => 0%N
  | Update _ :: es' => elapsed es'
  | Sleep d :: es' => (d + elapsed es')%N
  end.

Definition emitted (w : World) : list Uri.t := _onDidChange (provider w).

(** A call of [update uri] and the calls that follow it, each given with
    the time that passes before it and with the URI it passes. *)
Definition burst (uri : Uri.t) (later : list (N * Uri.t)) : list event :=
  Update uri :: flat_map (fun c => [Sleep (fst c); Update (snd c)]) later.

Definition is_update (e : event) : bool :=
  match e with
  | Update _ => true
  | Sleep _ => false
  end.

(** The number of calls of [update] in a sequence of events. *)
Definition updates (es : list event) : nat :=
  List.length (filter is_update es).

(** States the provider can be in: created, then any calls of [update]
    and any passing of time. *)
Inductive reachable : World -> Prop :=
| reach_create : forall t0, reachable (create t0)
| reach_step : forall w e, reachable w -> reachable (step e w).

(** The provider waits for the one timer that carries [uri] and is due at
    [deadline]. *)
Definition armed (uri : Uri.t) (deadline : N) (w : World) : Prop :=
  _waiting (provider w) = true /\ timers w = [(deadline, FireChange uri)].

(** The provider waits for nothing. *)
Definition idle (w : World) : Prop :=
  _waiting (provider w) = false /\ timers w = [].

End Debounce.

(** ** Host services the extension calls *)

(** The functions of [vscode.Uri] and of Node's [path] module that the
    extension calls.  They are host code; the extension is verified for
    every implementation of them. *)
Class Host : Type := {
  uri_toString : Uri.t -> string;
  uri_parse : string -> Uri.t;
  uri_file : string -> Uri.t;
  uri_fsPath : Uri.t -> string;
  path_join : string -> string -> string;
  path_dirname : string -> string;
  path_basename : string -> string;
  path_normalize : string -> string;
  path_resolve : string -> string
}.

(** A JavaScript string as its UTF-16 code units. *)
Definition text : Type := list N.

Module TextDocument.

Record t : Type := mk {
  languageId : string;
  uri : Uri.t;
  getText : text
}.

End TextDocument.

Inductive ViewColumn : Type :=
| One
| Two
| Three.

Module TextEditor.

Record t : Type := mk {
  document : TextDocument.t;
  viewColumn : option ViewColumn
}.

End TextEditor.

(** ** Commands and listeners of the extension *)

Module Extension.

Section WithHost.

Context {host : Host}.

Definition isMarkdownFile (document : TextDocument.t) : bool :=
  String.eqb (TextDocument.languageId document) "markdown"
  && negb (String.eqb (Uri.scheme (TextDocument.uri document)) "markdown").

Definition getMarkdownUri (uri : Uri.t) : Uri.t :=
  Uri.with_ uri
    {| Uri.c_scheme := Some "markdown";
       Uri.c_authority := None;
       Uri.c_path := Some (Uri.path uri ++ ".rendered");
       Uri.c_query := Some (uri_toString uri);
       Uri.c_fragment := None |}.

(** The listener registered with [onDidSaveTextDocument]. *)
Definition onDidSaveTextDocument (document : TextDocument.t)
    (w : Debounce.World) : Debounce.World :=
  if isMarkdownFile document then
    let uri := getMarkdownUri (TextDocument.uri document) in
    Debounce.update uri w
  else w.

(** The listener registered with [onDidChangeTextDocument], applied to
    the document of the event. *)
Definition onDidChangeTextDocument (event_document : TextDocument.t)
    (w : Debounce.World) : Debounce.World :=
  if isMarkdownFile event_document then
    let uri := getMarkdownUri (TextDocument.uri event_document) in
    Debounce.update uri w
  else w.

(** The listener registered with [onDidChangeConfiguration], over the
    host's open documents. *)
Definition onDidChangeConfiguration (textDocuments : list TextDocument.t)
    (w : Debounce.World) : Debounce.World :=
  fold_left
    (fun w document =>
       if String.eqb (Uri.scheme (TextDocument.uri document)) "markdown" then
         Debounce.update (TextDocument.uri document) w
       else w)
    textDocuments w.

(** What a command asks of the host. *)
Inductive action : Type :=
| ExecuteCommand (command : string)
| PreviewHtml (uri : Uri.t) (column : option ViewColumn) (title : string)
| ShowTextDocument (uri : Uri.t) (column : option ViewColumn)
| OpenAndShowTextDocument (uri : Uri.t)
| SendTelemetryEvent (name : string) (properties : list (string * string)).

(** The window state and the module variable [telemetryReporter] that
    the commands read. *)
Record Window : Type := mkWindow {
  activeTextEditor : option TextEditor.t;
  visibleTextEditors : list TextEditor.t;
  telemetryReporter : bool
}.

Definition getViewColumn (win : Window) (sideBySide : bool)
  : option ViewColumn :=
  match activeTextEditor win with
  | None => Some One
  | Some active =>
      if negb sideBySide then TextEditor.viewColumn active
      else
        match TextEditor.viewColumn active with
        | Some One => Some Two
        | Some Two => Some Three
        | other => other
        end
  end.

(** [showPreview(uri?, sideBySide = false)]; [None] is a call without a
    [Uri] argument. *)
Definition showPreview (win : Window) (uri : option Uri.t)
    (sideBySide : bool) : list action :=
  let resource :=
    match uri with
    | Some u => Some u
    | None =>
        match activeTextEditor win with
        | Some editor => Some (TextDocument.uri (TextEditor.document editor))
        | None => None
        end
    end in
  match resource with
  | None =>
      match activeTextEditor win with
      | None => [ExecuteCommand "markdown.showSource"]
      | Some _ => []
      end
  | Some resource =>
      let thenable :=
        PreviewHtml (getMarkdownUri resource) (getViewColumn win sideBySide)
          ("Preview '" ++ path_basename (uri_fsPath resource) ++ "'") in
      thenable ::
      (if telemetryReporter win then
         [SendTelemetryEvent "openPreview"
            [("where", if sideBySide then "sideBySide" else "inPlace");
             ("how", match uri with
                     | Some _ => "action"
                     | None => "pallete"
                     end)]]
       else [])
  end.

(** The document URI that [showSource] reads out of a preview URI. *)
Definition docUri (mdUri : Uri.t) : Uri.t :=
  uri_parse (Uri.query mdUri).

(** [showSource(mdUri)]. *)
Definition showSource (win : Window) (mdUri : option Uri.t) : list action :=
  match mdUri with
  | None => [ExecuteCommand "workbench.action.navigateBack"]
  | Some mdUri =>
      let docUri := docUri mdUri in
      match
        find (fun editor =>
                String.eqb
                  (uri_toString (TextDocument.uri (TextEditor.document editor)))
                  (uri_toString docUri))
             (visibleTextEditors win)
      with
      | Some editor =>
          [ShowTextDocument (TextDocument.uri (TextEditor.document editor))
                            (TextEditor.viewColumn editor)]
      | None => [OpenAndShowTextDocument docUri]
      end
  end.

End WithHost.

End Extension.

(** ** A backtracking matcher for the regular expressions of the source *)

Module RegExp.

(** The pattern constructs the extension's regular expression uses.
    Groups only group here: the replacement text never refers to one. *)
Inductive t : Type :=
| Bol                              (* ^ without the m flag *)
| Chr (c : N)                      (* one literal code unit *)
| Dot                              (* . without the s flag *)
| Class (cs : list N)              (* [...] *)
| Seq (r1 r2 : t)                  (* r1 r2 *)
| Alt (r1 r2 : t)                  (* r1|r2 *)
| Star (greedy : bool) (r : t)     (* r* and r*? *)
| Rep (n : nat) (r : t).           (* r{n} *)

(** A position in the input is represented by the text from it on: its
    index is the length of the input minus the length of that text. *)
Definition cont : Type := text -> option text.

(** The code units [.] does not match. *)
Definition lineTerminator (c : N) : bool :=
  (c =? 10)%N || (c =? 13)%N || (c =? 8232)%N || (c =? 8233)%N.

Definition one (p : N -> bool) (x : text) (k : cont) : option text :=
  match x with
  | c :: x' => if p c then k x' else None
  | [] => None
  end.

Definition orelse (a b : option text) : option text :=
  match a with
  | Some z => Some z
  | None => b
  end.

(** [m len r x k]: match [r] at position [x] of an input of length [len],
    then the rest of the pattern, [k].  Alternatives are tried left to
    right; a greedy star tries one more iteration before the rest of the
    pattern, a lazy star the rest of the pattern first; an iteration of a
    star that consumes nothing is rejected.  The result is the text after
    the whole match. *)
Fixpoint m (len : nat) (r : t) (x : text) (k : cont) {struct r}
  : option text :=
  match r with
  | Bol => if Nat.eqb (List.length x) len then k x else None
  | Chr c => one (fun a => (a =? c)%N) x k
  | Dot => one (fun a => negb (lineTerminator a)) x k
  | Class cs => one (fun a => existsb (N.eqb a) cs) x k
  | Seq r1 r2 => m len r1 x (fun y => m len r2 y k)
  | Alt r1 r2 => orelse (m len r1 x k) (m len r2 x k)
  | Rep n r1 =>
      (fix rep (n : nat) (x : text) {struct n} : option text :=
         match n with
         | O => k x
         | S n' => m len r1 x (fun y => rep n' y)
         end) n x
  | Star greedy r1 =>
      (fix loop (fuel : nat) (x : text) {struct fuel} : option text :=
         let again :=
           match fuel with
           | O => None
           | S fuel' =>
               m len r1 x
                 (fun y => if Nat.eqb (List.length y) (List.length x)
                           then None else loop fuel' y)
           end in
         if greedy then orelse again (k x) else orelse (k x) again)
        (S (List.length x)) x
  end.

(** The loop of [Star] in [m], by name. *)
Definition star_loop (len : nat) (greedy : bool) (r1 : t) (k : cont)
  : nat -> text -> option text :=
  fix loop (fuel : nat) (x : text) {struct fuel} : option text :=
    let again :=
      match fuel with
      | O => None
      | S fuel' =>
          m len r1 x
            (fun y => if Nat.eqb (List.length y) (List.length x)
                      then None else loop fuel' y)
      end in
    if greedy then orelse again (k x) else orelse (k x) again.

(** The first index, from [i] on, at which the pattern matches, with the
    text after the match; [s] is the input from index [i] on. *)
Fixpoint exec_from (len : nat) (r : t) (i : nat) (s : text)
  : option (nat * text) :=
  match m len r s Some with
  | Some rest => Some (i, rest)
  | None =>
      match s with
      | [] => None
      | _ :: s' => exec_from len r (S i) s'
      end
  end.

(** [r.exec(s)] for a pattern without the g flag. *)
Definition exec (r : t) (s : text) : option (nat * text) :=
  exec_from (List.length s) r 0 s.

(** [s.replace(r, '')] for a pattern without the g flag. *)
Definition replace_with_empty (r : t) (s : text) : text :=
  match exec r s with
  | Some (i, rest) => (firstn i s ++ rest)%list
  | None => s
  end.

End RegExp.

(** ** Front matter: [getDocumentContentForPreview] *)

Module FrontMatter.

Import RegExp.

Declare Scope regexp_scope.
Delimit Scope regexp_scope with re.
Notation "r1 ;; r2" := (Seq r1 r2)
  (at level 60, right associativity) : regexp_scope.

Definition LF : N := 10.
Definition CR : N := 13.
Definition DASH : N := 45.
Definition SPACE : N := 32.
Definition TAB : N := 9.

(** [(\r\n|\n)] *)
Definition newline : RegExp.t :=
  Alt (Chr CR ;; Chr LF)%re (Chr LF).

(** [[ \t]*] *)
Definition blanks : RegExp.t :=
  Star true (Class [SPACE; TAB]).

(** [/^-{3}[ \t]*(\r\n|\n)(.|\r\n|\n)*?(\r\n|\n)-{3}[ \t]*(\r\n|\n)/] *)
Definition pattern : RegExp.t :=
  (Bol ;; Rep 3 (Chr DASH) ;; blanks ;; newline ;;
   Star false (Alt Dot newline) ;;
   newline ;; Rep 3 (Chr DASH) ;; blanks ;; newline)%re.

(** [getDocumentContentForPreview(document)]; [previewFrontMatter] is the
    value of the setting [markdown.previewFrontMatter]. *)
Definition getDocumentContentForPreview (previewFrontMatter : string)
    (document : TextDocument.t) : text :=
  let content := TextDocument.getText document in
  if String.eqb previewFrontMatter "hide" then
    replace_with_empty pattern content
  else content.

(** The code units of a string of the development, for examples. *)
Fixpoint units (s : string) : text :=
  match s with
  | EmptyString => []
  | String a s' => N_of_ascii a :: units s'
  end.

(** *** The shape of a front-matter block, in the spec's words *)

Definition blank (c : N) : bool :=
  (c =? SPACE)%N || (c =? TAB)%N.

Inductive eol : Type :=
| EolLF
| EolCRLF.

Definition eol_units (e : eol) : text :=
  match e with
  | EolLF => [LF]
  | EolCRLF => [CR; LF]
  end.

(** A line: its content, free of line terminators, and its ending. *)
Record line : Type := mkLine {
  content : text;
  ending : eol
}.

Definition line_units (l : line) : text :=
  (content l ++ eol_units (ending l))%list.

(** A code unit that is no line terminator. *)
Definition plain (c : N) : bool := negb (lineTerminator c).

Definition line_ok (l : line) : bool :=
  forallb plain (content l).

(** A delimiter line: three dashes, then nothing but blanks. *)
Definition is_delimiter (c : text) : bool :=
  match c with
  | d1 :: d2 :: d3 :: ws =>
      (d1 =? DASH)%N && (d2 =? DASH)%N && (d3 =? DASH)%N && forallb blank ws
  | _ => false
  end.

(** A block: a delimiter line, lines that are no delimiter lines, and the
    next delimiter line. *)
Record block : Type := mkBlock {
  opening : line;
  body : list line;
  closing : line
}.

Definition well_formed (b : block) : bool :=
  is_delimiter (content (opening b))
  && forallb (fun l => line_ok l && negb (is_delimiter (content l))) (body b)
  && is_delimiter (content (closing b)).

Definition block_units (b : block) : text :=
  (line_units (opening b) ++ flat_map line_units (body b)
   ++ line_units (closing b))%list.

(** *** Direct recognisers, for texts that are given as they are *)

Fixpoint skip_blanks (s : text) : text :=
  match s with
  | c :: s' => if blank c then skip_blanks s' else s
  | [] => []
  end.

Definition after_dashes (s : text) : option text :=
  match s with
  | d1 :: d2 :: d3 :: s' =>
      if (d1 =? DASH)%N && (d2 =? DASH)%N && (d3 =? DASH)%N
      then Some s' else None
  | _ => None
  end.

Definition after_newline (s : text) : option text :=
  match s with
  | c :: s' =>
      if (c =? LF)%N then Some s'
      else if (c =? CR)%N then
        match s' with
        | c' :: s'' => if (c' =? LF)%N then Some s'' else None
        | [] => None
        end
      else None
  | [] => None
  end.

(** The text begins with a delimiter line; the result is what follows. *)
Definition after_delimiter_line (s : text) : option text :=
  match after_dashes s with
  | Some s' => after_newline (skip_blanks s')
  | None => None
  end.

(** A line ends here and a delimiter line follows it. *)
Definition after_closing (s : text) : option text :=
  match after_newline s with
  | Some s' => after_delimiter_line s'
  | None => None
  end.

(** Somewhere in the text a line ends and a delimiter line follows. *)
Fixpoint has_closing (s : text) : bool :=
  match after_closing s with
  | Some _ => true
  | None =>
      match s with
      | [] => false
      | _ :: s' => has_closing s'
      end
  end.

(** The text does not begin with a delimiter line. *)
Definition no_front_matter (s : text) : bool :=
  match after_delimiter_line s with
  | Some _ => false
  | None => true
  end.

(** The text begins with a delimiter line that no closing one answers. *)
Definition unclosed_front_matter (s : text) : bool :=
  match after_delimiter_line s with
  | Some s' => negb (has_closing s')
  | None => false
  end.

(** The lazy loop of the pattern, unfolded: from the end of the opening
    line on, stop at the first place where a line ends and a delimiter
    line follows, and otherwise step over one character that is no line
    terminator, or over one line ending. *)
Fixpoint scan (s : text) : option text :=
  match after_closing s with
  | Some rest => Some rest
  | None =>
      match s with
      | [] => None
      | c :: s' =>
          if negb (lineTerminator c) then scan s'
          else if (c =? LF)%N then scan s'
          else if (c =? CR)%N then
            match s' with
            | c' :: s'' => if (c' =? LF)%N then scan s'' else None
            | [] => None
            end
          else None
      end
  end.

Definition strip (s : text) : text :=
  match after_delimiter_line s with
  | Some s' =>
      match scan s' with
      | Some rest => rest
      | None => s
      end
  | None => s
  end.

End FrontMatter.

(** ** The content provider's renderer hook and stylesheet links *)

(** The double quote, as a one-character string. *)
Definition dq : string := String (ascii_of_nat 34) EmptyString.

(** What a call into a library yields: a value, or an exception. *)
Inductive outcome (A : Type) : Type :=
| Value (a : A)
| Throws.

Arguments Value {A} a.
Arguments Throws {A}.

(** The functions of highlight.js and of markdown-it's [utils] that the
    [highlight] callback calls: whether [hljs.getLanguage(lang)] is truthy,
    the [value] of [hljs.highlight(lang, str, ignore_illegals)] or its
    exception, and [md.utils.escapeHtml]. *)
Class Highlighter : Type := {
  getLanguage : string -> bool;
  hljs_highlight : string -> string -> bool -> outcome string;
  escapeHtml : string -> string
}.

Module ContentProvider.

Section WithHighlighter.

Context {hl : Highlighter}.

(** The template both [return] statements of the callback fill. *)
Definition wrap (inner : string) : string :=
  "<pre class=" ++ dq ++ "hljs" ++ dq ++ "><code><div>" ++ inner
  ++ "</div></code></pre>".

(** The [highlight] option passed to markdown-it; [lang] is [None] when
    the argument is undefined. *)
Definition highlight (str : string) (lang : option string) : string :=
  let fallback := wrap (escapeHtml str) in
  match lang with
  | Some l =>
      if truthy l && getLanguage l then
        match hljs_highlight l str true with
        | Value v => wrap v
        | Throws => fallback
        end
      else fallback
  | None => fallback
  end.

End WithHighlighter.

Section WithHost.

Context {host : Host}.

Definition isAbsolute (p : string) : bool :=
  String.eqb (path_normalize (p ++ "/"))
             (path_normalize (path_resolve p ++ "/")).

(** [fixHref(resource, href)]; [rootPath] is
    [vscode.workspace.rootPath], [None] when it is undefined. *)
Definition fixHref (rootPath : option string) (resource : Uri.t)
    (href : string) : string :=
  if truthy href then
    if truthy (Uri.scheme (uri_parse href)) then href
    else if isAbsolute href then uri_toString (uri_file href)
    else
      match rootPath with
      | Some root =>
          if truthy root then
            uri_toString (uri_file (path_join root href))
          else
            uri_toString
              (uri_file (path_join (path_dirname (uri_fsPath resource)) href))
      | None =>
          uri_toString
            (uri_file (path_join (path_dirname (uri_fsPath resource)) href))
      end
  else href.

End WithHost.

End ContentProvider.

(** ** The value classes of the view model *)

Module ViewModel.

Section Decorations.

(** [Range] and [IModelDecoration] are declared in other modules of the
    editor; the classes below only store them. *)
Variable Range : Type.
Variable IModelDecoration : Type.

Record InlineDecoration : Type := new_InlineDecoration {
  inline_range : Range;
  inlineClassName : string
}.

(** [range] is [None] while it holds [null]. *)
Record ViewModelDecoration : Type := mkViewModelDecoration {
  range : option Range;
  source : IModelDecoration
}.

(** The constructor. *)
Definition new_ViewModelDecoration (source : IModelDecoration)
  : ViewModelDecoration :=
  {| range := None; source := source |}.

End Decorations.

Arguments range {Range IModelDecoration} _.
Arguments source {Range IModelDecoration} _.
Arguments new_ViewModelDecoration {Range IModelDecoration} _.

End ViewModel.

(** ** The content provider's page: [provideTextDocumentContent] *)

(** The line feed, as a one-character string. *)
Definition nl : string := String (ascii_of_nat 10) EmptyString.

Module JsArray.

(** [Array.prototype.join] on an array of strings. *)
Fixpoint join (sep : string) (l : list string) : string :=
  match l with
  | [] => EmptyString
  | x :: l' =>
      match l' with
      | [] => x
      | _ :: _ => x ++ sep ++ join sep l'
      end
  end.

End JsArray.

(** What the provider asks of the host and of markdown-it beyond [Host]:
    numbers as settings hold them, with the test [+x > 0] and their
    rendering in a template; [context.asAbsolutePath]; [uri.toString(true)];
    [vscode.workspace.openTextDocument], which yields a document or fails;
    and [render] of the configured markdown-it instance. *)
Class Workbench : Type := {
  number : Type;
  number_positive : number -> bool;
  number_toString : number -> string;
  asAbsolutePath : string -> string;
  uri_toString_skipEncoding : Uri.t -> string;
  openTextDocument : Uri.t -> outcome TextDocument.t;
  render : text -> string
}.

Module Page.

Section WithWorkbench.

Context {host : Host} {wb : Workbench}.

(** The object under [markdown.preview]; a field is [None] when it is
    undefined. *)
Record PreviewSettings : Type := mkPreviewSettings {
  fontFamily : option string;
  fontSize : option number;
  lineHeight : option number
}.

(** The settings a render reads: [markdown.styles] ([None] when it is no
    array), [markdown.preview], [markdown.previewFrontMatter] and the
    truthiness of [editor.scrollBeyondLastLine]. *)
Record Configuration : Type := mkConfiguration {
  styles : option (list string);
  preview : option PreviewSettings;
  previewFrontMatter : string;
  scrollBeyondLastLine : bool
}.

Definition getMediaPath (mediaFile : string) : string :=
  asAbsolutePath (path_join "media" mediaFile).

(** The [link] element of one configured style. *)
Definition style_link (rootPath : option string) (uri : Uri.t)
    (style : string) : string :=
  "<link rel=" ++ dq ++ "stylesheet" ++ dq ++ " href=" ++ dq
  ++ ContentProvider.fixHref rootPath uri style ++ dq
  ++ " type=" ++ dq ++ "text/css" ++ dq ++ " media=" ++ dq ++ "screen" ++ dq
  ++ ">".

Definition computeCustomStyleSheetIncludes (rootPath : option string)
    (cfg : Configuration) (uri : Uri.t) : string :=
  match styles cfg with
  | Some styles =>
      if Nat.ltb 0 (List.length styles) then
        JsArray.join nl (map (style_link rootPath uri) styles)
      else EmptyString
  | None => EmptyString
  end.

(** [+x > 0] for a setting that is a number or undefined. *)
Definition positive (x : option number) : bool :=
  match x with
  | Some n => number_positive n
  | None => false
  end.

Definition getSettingsOverrideStyles (cfg : Configuration) : string :=
  match preview cfg with
  | None => EmptyString
  | Some previewSettings =>
      JsArray.join nl
        ["<style>";
         "body {";
         match fontFamily previewSettings with
         | Some family =>
             if truthy family then "font-family: " ++ family ++ ";"
             else EmptyString
         | None => EmptyString
         end;
         match fontSize previewSettings with
         | Some size =>
             if number_positive size
             then "font-size: " ++ number_toString size ++ "px;"
             else EmptyString
         | None => EmptyString
         end;
         match lineHeight previewSettings with
         | Some height =>
             if number_positive height
             then "line-height: " ++ number_toString height ++ ";"
             else EmptyString
         | None => EmptyString
         end;
         "}";
         "</style>"]
  end.

(** The lines of the page before the rendered body. *)
Definition head (rootPath : option string) (cfg : Configuration)
    (uri : Uri.t) (document : TextDocument.t) : string :=
  JsArray.join nl
    ["<!DOCTYPE html>";
     "<html>";
     "<head>";
     "<meta http-equiv=" ++ dq ++ "Content-type" ++ dq ++ " content=" ++ dq
     ++ "text/html;charset=UTF-8" ++ dq ++ ">";
     "<link rel=" ++ dq ++ "stylesheet" ++ dq ++ " type=" ++ dq ++ "text/css"
     ++ dq ++ " href=" ++ dq ++ getMediaPath "markdown.css" ++ dq ++ " >";
     "<link rel=" ++ dq ++ "stylesheet" ++ dq ++ " type=" ++ dq ++ "text/css"
     ++ dq ++ " href=" ++ dq ++ getMediaPath "tomorrow.css" ++ dq ++ " >";
     getSettingsOverrideStyles cfg;
     computeCustomStyleSheetIncludes rootPath cfg uri;
     "<base href=" ++ dq
     ++ uri_toString_skipEncoding (TextDocument.uri document) ++ dq ++ ">";
     "</head>";
     "<body class=" ++ dq
     ++ (if scrollBeyondLastLine cfg then "scrollBeyondLastLine"
         else EmptyString)
     ++ dq ++ ">"].

Definition tail : string := JsArray.join nl ["</body>"; "</html>"].

(** [provideTextDocumentContent(uri)]: the page, or the failure of
    [openTextDocument]. *)
Definition provideTextDocumentContent (rootPath : option string)
    (cfg : Configuration) (uri : Uri.t) : outcome string :=
  match openTextDocument (uri_parse (Uri.query uri)) with
  | Value document =>
      let head := head rootPath cfg uri document in
      let body :=
        render (FrontMatter.getDocumentContentForPreview
                  (previewFrontMatter cfg) document) in
      Value (head ++ body ++ tail)
  | Throws => Throws
  end.

End WithWorkbench.

End Page.

(** ** Sequences of calls of [update] *)

Module Schedules.

Import Debounce.

(** Calls of [update], each followed by the time that passes after it. *)
Definition spaced (calls : list (Uri.t * N)) : list event :=
  flat_map (fun c => [Update (fst c); Sleep (snd c)]) calls.

Definition callback_uri (cb : callback) : Uri.t :=
  match cb with
  | FireChange uri => uri
  end.

(** The URIs of the timers in flight. *)
Definition pending (w : World) : list Uri.t :=
  map (fun t => callback_uri (snd t)) (timers w).

(** The URIs that a sequence of events passes to [update]. *)
Fixpoint updated (es : list event) : list Uri.t :=
  match es with
  | [] => []
  | Update uri :: es' => uri :: updated es'
  | Sleep _ :: es' => updated es'
  end.

(** The provider is idle, or waits for a timer that is due within the next
    300 units. *)
Definition timely (w : World) : Prop :=
  idle w
  \/ exists uri deadline,
       armed uri deadline w /\ (now w < deadline <= now w + 300)%N.

End Schedules.

(** ** Code units the front-matter pattern cannot step over *)

Module Stuck.

Import FrontMatter.

(** A carriage return that no line feed follows, a line separator or a
    paragraph separator: a line terminator for [.], and no [\r\n] or [\n]
    either. *)
Definition stuck (c : N) (post : text) : bool :=
  (c =? 8232)%N || (c =? 8233)%N
  || ((c =? CR)%N
      && negb match post with
              | c' :: _ => (c' =? LF)%N
              | [] => false
              end).

End Stuck.

(** ** A plain host, to run the definitions on concrete inputs *)

Module PlainHost.

(** Split at the first character that satisfies [p]; the character stays
    with the second part. *)
Fixpoint break (p : ascii -> bool) (s : string) : string * string :=
  match s with
  | EmptyString => (EmptyString, EmptyString)
  | String a s' =>
      if p a then (EmptyString, s)
      else let '(l, r) := break p s' in (String a l, r)
  end.

Definition is_char (c : ascii) (a : ascii) : bool := Ascii.eqb a c.

Definition any_of (cs : list ascii) (a : ascii) : bool :=
  existsb (Ascii.eqb a) cs.

Definition tail (s : string) : string :=
  match s with
  | EmptyString => EmptyString
  | String _ s' => s'
  end.

Definition starts_with (pre s : string) : bool := String.prefix pre s.

(** scheme ":" "//" authority path "?" query "#" fragment, every part
    after the scheme optional, nothing percent-encoded. *)
Definition parse (s : string) : Uri.t :=
  let '(head, rest) := break (any_of [":"; "/"; "?"; "#"]%char) s in
  let '(scheme, s1) :=
    if starts_with ":" rest && truthy head then (head, tail rest)
    else (EmptyString, s) in
  let '(authority, s2) :=
    if starts_with "//" s1
    then break (any_of ["/"; "?"; "#"]%char) (tail (tail s1))
    else (EmptyString, s1) in
  let '(path, s3) := break (any_of ["?"; "#"]%char) s2 in
  let '(query, s4) :=
    if starts_with "?" s3 then break (is_char "#"%char) (tail s3)
    else (EmptyString, s3) in
  {| Uri.scheme := scheme;
     Uri.authority := authority;
     Uri.path := path;
     Uri.query := query;
     Uri.fragment := tail s4 |}.

Definition toString (u : Uri.t) : string :=
  Uri.scheme u ++ ":"
  ++ (if truthy (Uri.authority u) || String.eqb (Uri.scheme u) "file"
      then "//" ++ Uri.authority u else EmptyString)
  ++ Uri.path u
  ++ (if truthy (Uri.query u) then "?" ++ Uri.query u else EmptyString)
  ++ (if truthy (Uri.fragment u) then "#" ++ Uri.fragment u else EmptyString).

Definition file (p : string) : Uri.t :=
  {| Uri.scheme := "file";
     Uri.authority := EmptyString;
     Uri.path := p;
     Uri.query := EmptyString;
     Uri.fragment := EmptyString |}.

(** The text before the last slash, and the text after it. *)
Fixpoint split_last (s : string) : option string * string :=
  match s with
  | EmptyString => (None, EmptyString)
  | String a s' =>
      match split_last s' with
      | (Some d, b) => (Some (String a d), b)
      | (None, b) =>
          if Ascii.eqb a "/" then (Some EmptyString, b)
          else (None, String a b)
      end
  end.

Definition dirname (p : string) : string :=
  match fst (split_last p) with
  | Some d => if truthy d then d else "/"
  | None => "."
  end.

Definition basename (p : string) : string := snd (split_last p).

Definition join (a b : string) : string := a ++ "/" ++ b.

Definition resolve (p : string) : string :=
  if starts_with "/" p then p else join "/home" p.

#[export] Instance host : Host := {|
  uri_toString := toString;
  uri_parse := parse;
  uri_file := file;
  uri_fsPath := Uri.path;
  path_join := join;
  path_dirname := dirname;
  path_basename := basename;
  path_normalize := fun p => p;
  path_resolve := resolve
|}.

(** A highlighter that knows one language and fails on one input. *)
Definition escape_char (a : ascii) : string :=
  if Ascii.eqb a "&" then "&amp;"
  else if Ascii.eqb a "<" then "&lt;"
  else if Ascii.eqb a ">" then "&gt;"
  else if Ascii.eqb a (ascii_of_nat 34) then "&quot;"
  else String a EmptyString.

Fixpoint escape (s : string) : string :=
  match s with
  | EmptyString => EmptyString
  | String a s' => escape_char a ++ escape s'
  end.

#[export] Instance highlighter : Highlighter := {|
  getLanguage := fun l => String.eqb l "js";
  hljs_highlight := fun _ str _ =>
    if String.eqb str "<boom>" then Throws
    else Value ("<span class=hljs-x>" ++ escape str ++ "</span>");
  escapeHtml := escape
|}.

End PlainHost.

(** ** The text form of a URI *)

Module UriText.

(** The characters that are written as they are. *)
Definition unreserved (a : ascii) : bool :=
  let n := nat_of_ascii a in
  (Nat.leb 48 n && Nat.leb n 57) || (Nat.leb 65 n && Nat.leb n 90)
  || (Nat.leb 97 n && Nat.leb n 122)
  || existsb (Ascii.eqb a) ["-"; "_"; "."; "!"; "~"; "*"; "'"; "("; ")"]%char.

Definition hex_digit (n : nat) : ascii :=
  nth n ["0"; "1"; "2"; "3"; "4"; "5"; "6"; "7"; "8"; "9";
         "A"; "B"; "C"; "D"; "E"; "F"]%char "0"%char.

Definition hex_value (a : ascii) : option nat :=
  let n := nat_of_ascii a in
  if Nat.leb 48 n && Nat.leb n 57 then Some (n - 48)
  else if Nat.leb 65 n && Nat.leb n 70 then Some (n - 55)
  else if Nat.leb 97 n && Nat.leb n 102 then Some (n - 87)
  else None.

(** Modelled from the spec: the escapes that make the text form of
    [Uri.toString] round-trip safe (vs/base/common/uri is not among the
    sources): one character, written as a percent sign and two hexadecimal
    digits unless it is unreserved, or a slash where slashes separate
    segments. *)
Definition encode_char (keep_slash : bool) (a : ascii) : string :=
  if unreserved a || (keep_slash && Ascii.eqb a "/") then String a EmptyString
  else
    String "%"
      (String (hex_digit (nat_of_ascii a / 16))
         (String (hex_digit (nat_of_ascii a mod 16)) EmptyString)).

Fixpoint encode (keep_slash : bool) (s : string) : string :=
  match s with
  | EmptyString => EmptyString
  | String a s' => encode_char keep_slash a ++ encode keep_slash s'
  end.

(** Modelled from the spec: the way back from the escapes, for
    [Uri.parse]. *)
Fixpoint decode (s : string) : string :=
  match s with
  | EmptyString => EmptyString
  | String a s' =>
      match s' with
      | String h1 (String h2 s'') =>
          match Ascii.eqb a "%", hex_value h1, hex_value h2 with
          | true, Some v1, Some v2 =>
              String (ascii_of_nat (16 * v1 + v2)) (decode s'')
          | _, _, _ => String a (decode s')
          end
      | _ => String a (decode s')
      end
  end.

(** Modelled from the spec: [Uri.toString], of vs/base/common/uri, which is
    not among the sources.  The preview's key reads
    [markdown:<uri>.rendered?<original-uri>], so a URI is written scheme,
    colon, path, question mark, query (with the authority after two
    slashes and the fragment after a hash sign, where there is one); and
    the query is a round-trip-safe serialization, so the parts are
    escaped: whatever could be taken for a separator is written as a
    percent sign and two hexadecimal digits. *)
Definition toString (u : Uri.t) : string :=
  (if truthy (Uri.scheme u) then Uri.scheme u ++ ":" else EmptyString)
  ++ (if truthy (Uri.authority u) || String.eqb (Uri.scheme u) "file"
      then "//" else EmptyString)
  ++ encode false (Uri.authority u)
  ++ encode true (Uri.path u)
  ++ (if truthy (Uri.query u) then "?" ++ encode false (Uri.query u)
      else EmptyString)
  ++ (if truthy (Uri.fragment u) then "#" ++ encode false (Uri.fragment u)
      else EmptyString).

(** Modelled from the spec: [Uri.parse], of vs/base/common/uri, which is
    not among the sources: the text is split at the separators that
    [toString] writes, and the escapes of every part but the scheme are
    undone. *)
Definition parse (s : string) : Uri.t :=
  let raw := PlainHost.parse s in
  {| Uri.scheme := Uri.scheme raw;
     Uri.authority := decode (Uri.authority raw);
     Uri.path := decode (Uri.path raw);
     Uri.query := decode (Uri.query raw);
     Uri.fragment := decode (Uri.fragment raw) |}.

(** A host with this text form, and the paths of [h]. *)
Definition host (h : Host) : Host :=
  {| uri_toString := toString;
     uri_parse := parse;
     uri_file := @uri_file h;
     uri_fsPath := @uri_fsPath h;
     path_join := @path_join h;
     path_dirname := @path_dirname h;
     path_basename := @path_basename h;
     path_normalize := @path_normalize h;
     path_resolve := @path_resolve h |}.

(** No character of [s] satisfies [p]. *)
Fixpoint free_of (p : ascii -> bool) (s : string) : bool :=
  match s with
  | EmptyString => true
  | String a s' => negb (p a) && free_of p s'
  end.

(** [s] is empty or begins with a character that satisfies [p]. *)
Definition stops_at (p : ascii -> bool) (s : string) : bool :=
  match s with
  | EmptyString => true
  | String a _ => p a
  end.

Definition separator : ascii -> bool :=
  PlainHost.any_of [":"; "/"; "?"; "#"]%char.

Definition after_authority : ascii -> bool :=
  PlainHost.any_of ["/"; "?"; "#"]%char.

Definition after_path : ascii -> bool :=
  PlainHost.any_of ["?"; "#"]%char.

(** A scheme that can be read back: not empty, and free of separators. *)
Definition scheme_ok (scheme : string) : bool :=
  truthy scheme && free_of separator scheme.

(** A URI whose text form reads back as the URI itself: a scheme that
    can be read back, and a path that cannot be taken for an authority (it
    is empty or begins with a slash where two slashes are written before
    it, and does not begin with two slashes elsewhere). *)
Definition well_formed (u : Uri.t) : bool :=
  scheme_ok (Uri.scheme u)
  && (if truthy (Uri.authority u) || String.eqb (Uri.scheme u) "file"
      then stops_at (PlainHost.is_char "/") (Uri.path u)
      else negb (PlainHost.starts_with "//" (Uri.path u))).

End UriText.

(** ** A host with drive letters *)

Module DriveHost.

(** [path.resolve] where a path that begins with a drive letter and a
    colon is absolute. *)
Definition resolve (p : string) : string :=
  match p with
  | String _ (String ":" _) => p
  | _ => "C:\cwd\" ++ p
  end.

Definition host : Host :=
  {| uri_toString := UriText.toString;
     uri_parse := UriText.parse;
     uri_file := PlainHost.file;
     uri_fsPath := Uri.path;
     path_join := fun a b => a ++ "\" ++ b;
     path_dirname := PlainHost.dirname;
     path_basename := PlainHost.basename;
     path_normalize := fun p => p;
     path_resolve := resolve |}.

End DriveHost.

(** ** Sample inputs *)

Module Samples.

Import FrontMatter.

Definition u1 : Uri.t :=
  Uri.mk "markdown" EmptyString "/a.md.rendered" "file:///a.md" EmptyString.

Definition u2 : Uri.t :=
  Uri.mk "markdown" EmptyString "/b.md.rendered" "file:///b.md" EmptyString.

Definition readme : Uri.t := PlainHost.file "/docs/readme.md".

(** A document whose path holds a blank, a question mark and a hash sign,
    with a query and a fragment of its own. *)
Definition notes : Uri.t :=
  Uri.mk "file" "host name" "/my docs/a?b#c%41.md" "x=1&y=#2" "top".

(** The preview of [readme], open as a document of its own. *)
Definition preview_document : TextDocument.t :=
  TextDocument.mk "markdown"
    (Extension.getMarkdownUri (host := PlainHost.host) readme)
    (units "<h1>T</h1>").

Definition readme_editor : TextEditor.t :=
  TextEditor.mk (TextDocument.mk "markdown" readme (units "# T")) (Some One).

Definition window_with_reporter : Extension.Window :=
  Extension.mkWindow (Some readme_editor) [readme_editor] true.

(** A Markdown document at [readme] with the given text. *)
Definition markdown_document (content : text) : TextDocument.t :=
  TextDocument.mk "markdown" readme content.

Definition dashes : line := mkLine (units "---") EolLF.

(** [---], [title: x], [---] and a heading after them. *)
Definition titled_block : block :=
  mkBlock dashes [mkLine (units "title: x") EolLF] dashes.

Definition heading : text := (units "# T" ++ [LF])%list.

(** [---] directly followed by [---]. *)
Definition empty_block : block := mkBlock dashes [] dashes.

(** Text with a thematic break: [intro], [---], [more]. *)
Definition intro_rule_more : text :=
  (units "intro" ++ [LF] ++ units "---" ++ [LF] ++ units "more")%list.

(** [---], [title: x] and a heading, with no closing delimiter line. *)
Definition unclosed : text :=
  (units "---" ++ [LF] ++ units "title: x" ++ [LF] ++ heading)%list.

End Samples.

(** ** A plain workbench, to run the page on concrete inputs *)

Module PlainWorkbench.

Import FrontMatter Samples.

Definition uri_eqb (a b : Uri.t) : bool :=
  String.eqb (Uri.scheme a) (Uri.scheme b)
  && String.eqb (Uri.authority a) (Uri.authority b)
  && String.eqb (Uri.path a) (Uri.path b)
  && String.eqb (Uri.query a) (Uri.query b)
  && String.eqb (Uri.fragment a) (Uri.fragment b).

(** The characters of a text of 8-bit code units. *)
Fixpoint chars (t : text) : string :=
  match t with
  | [] => EmptyString
  | c :: t' => String (ascii_of_N c) (chars t')
  end.

(** The one document of this workbench: [readme], with a front-matter
    block and a heading. *)
Definition readme_document : TextDocument.t :=
  markdown_document (block_units titled_block ++ heading)%list.

#[export] Instance workbench : Workbench := {|
  number := N;
  number_positive := fun n => (0 <? n)%N;
  number_toString := fun n => NilEmpty.string_of_uint (N.to_uint n);
  asAbsolutePath := fun p => "/ext/" ++ p;
  uri_toString_skipEncoding := PlainHost.toString;
  openTextDocument := fun u =>
    if uri_eqb u readme then Value readme_document else Throws;
  render := fun t => "<p>" ++ chars t ++ "</p>"
|}.

Definition hide_configuration
  : Page.Configuration (wb := workbench) :=
  Page.mkConfiguration (wb := workbench)
    (Some ["http://x/y.css"])
    (Some (Page.mkPreviewSettings (wb := workbench)
             (Some "serif") (Some 14%N) None))
    "hide" true.

End PlainWorkbench.

(** * Properties *)

(** ** The debounce of [update] *)

Module DebounceProofs.

Import Debounce Samples.

Lemma update_when_waiting (uri : Uri.t) (w : World) :
  _waiting (provider w) = true -> update uri w = w.
Proof.
  intros Hw. unfold update. rewrite Hw. reflexivity.
Qed.

Lemma update_when_idle (uri : Uri.t) (w : World) :
  idle w ->
  armed uri (now w + 300)%N (update uri w)
  /\ emitted (update uri w) = emitted w
  /\ now (update uri w) = now w.
Proof.
  intros [Hw Ht]. unfold update, armed, emitted. rewrite Hw. cbn.
  rewrite Ht. cbn. auto.
Qed.

Lemma sleep_before_deadline (uri : Uri.t) (deadline d : N) (w : World) :
  armed uri deadline w -> (now w + d < deadline)%N ->
  armed uri deadline (sleep d w)
  /\ emitted (sleep d w) = emitted w
  /\ now (sleep d w) = (now w + d)%N.
Proof.
  intros [Hw Ht] Hlt. unfold sleep, armed, emitted. rewrite Ht. cbn.
  destruct (N.leb_spec deadline (now w + d)) as [Hle | _]; [lia |].
  cbn. auto.
Qed.

Lemma sleep_to_deadline (uri : Uri.t) (deadline d : N) (w : World) :
  armed uri deadline w -> (deadline <= now w + d)%N ->
  idle (sleep d w)
  /\ emitted (sleep d w) = (emitted w ++ [uri])%list
  /\ now (sleep d w) = (now w + d)%N.
Proof.
  intros [Hw Ht] Hle. unfold sleep, idle, emitted. rewrite Ht. cbn.
  destruct (N.leb_spec deadline (now w + d)) as [_ | Hlt]; [| lia].
  cbn. auto.
Qed.

Lemma run_app (es1 es2 : list event) (w : World) :
  run (es1 ++ es2) w = run es2 (run es1 w).
Proof.
  unfold run. apply fold_left_app.
Qed.

(** While the timer is armed and not yet due, calls of [update] and the
    passing of time change nothing but the clock. *)
Lemma run_inside_window (uri : Uri.t) (deadline : N) (es : list event) :
  forall w,
    armed uri deadline w -> (now w + elapsed es < deadline)%N ->
    armed uri deadline (run es w)
    /\ emitted (run es w) = emitted w
    /\ now (run es w) = (now w + elapsed es)%N.
Proof.
  induction es as [| e es IH]; intros w Harmed Hlt.
  - cbn. rewrite N.add_0_r. auto.
  - destruct e as [uri' | d]; cbn [run fold_left step elapsed] in *.
    + rewrite (update_when_waiting uri' w (proj1 Harmed)).
      apply IH; assumption.
    + destruct (sleep_before_deadline uri deadline d w Harmed)
        as (Ha & He & Hn); [lia |].
      destruct (IH (sleep d w) Ha) as (Ha' & He' & Hn'); [lia |].
      fold (run es (sleep d w)).
      rewrite He', Hn', He, Hn. repeat split; try apply Ha'. lia.
Qed.

(** One window, whatever the later calls pass: nothing is emitted while
    less than 300 units have passed, and the one emission that follows
    carries the first call's URI. *)
Lemma window_emits_first (uri : Uri.t) (es : list event) (rest : N)
    (w : World) :
  idle w -> (elapsed es < 300)%N -> (300 <= elapsed es + rest)%N ->
  emitted (run (Update uri :: es) w) = emitted w
  /\ emitted (run (Update uri :: es ++ [Sleep rest]) w)
     = (emitted w ++ [uri])%list
  /\ idle (run (Update uri :: es ++ [Sleep rest]) w).
Proof.
  intros Hidle Hlt Hge.
  destruct (update_when_idle uri w Hidle) as (Ha & He & Hn).
  destruct (run_inside_window uri (now w + 300)%N es (update uri w) Ha)
    as (Ha' & He' & Hn'); [lia |].
  change (run (Update uri :: es) w) with (run es (update uri w)).
  change (run (Update uri :: es ++ [Sleep rest]) w)
    with (run (es ++ [Sleep rest]) (update uri w)).
  rewrite run_app. cbn [run fold_left step].
  fold (run es (update uri w)).
  destruct (sleep_to_deadline uri (now w + 300)%N rest _ Ha')
    as (Hi & He'' & _); [lia |].
  rewrite He'', He', He. auto.
Qed.

Lemma updates_burst (uri : Uri.t) (later : list (N * Uri.t)) :
  updates (burst uri later) = S (List.length later).
Proof.
  unfold updates, burst. cbn. f_equal.
  induction later as [| c later IH]; cbn; [reflexivity | now rewrite IH].
Qed.

Lemma create_idle (t0 : N) : idle (create t0).
Proof. split; reflexivity. Qed.

(** The states the provider reaches are idle or armed. *)
Lemma reachable_idle_or_armed (w : World) :
  reachable w -> idle w \/ exists uri deadline, armed uri deadline w.
Proof.
  induction 1 as [t0 | w e _ IH].
  - left. apply create_idle.
  - destruct e as [uri' | d]; cbn [step].
    + destruct IH as [Hi | (uri & deadline & Ha)].
      * right. exists uri', (now w + 300)%N.
        apply (update_when_idle uri' w Hi).
      * right. exists uri, deadline.
        rewrite (update_when_waiting uri' w (proj1 Ha)). exact Ha.
    + destruct IH as [[Hw Ht] | (uri & deadline & Ha)].
      * left. unfold sleep, idle. rewrite Ht. cbn. auto.
      * destruct (N.lt_ge_cases (now w + d) deadline) as [Hlt | Hge].
        -- right. exists uri, deadline.
           apply (sleep_before_deadline uri deadline d w Ha Hlt).
        -- left. apply (sleep_to_deadline uri deadline d w Ha Hge).
Qed.

(** C1: from a fresh provider, N >= 1 calls of [update], the first with
    [u] and the last less than 300 units after the first, emit nothing
    inside the window and exactly one change once 300 units have passed;
    that change carries [u], the URI of the call that armed the timer,
    whether the later calls pass [u] again or another URI. *)
Theorem update_burst_emits_once (u : Uri.t) (n : nat)
    (later : list (N * Uri.t)) (rest t0 : N) :
  (1 <= n)%nat -> List.length later = (n - 1)%nat ->
  (elapsed (burst u later) < 300)%N ->
  (300 <= elapsed (burst u later) + rest)%N ->
  updates (burst u later) = n
  /\ emitted (run (burst u later) (create t0)) = []
  /\ emitted (run (burst u later ++ [Sleep rest]) (create t0)) = [u]
  /\ _waiting (provider (run (burst u later ++ [Sleep rest]) (create t0)))
     = false.
Proof.
  intros Hn Hlen Hlt Hge. split.
  - rewrite updates_burst, Hlen. lia.
  - unfold burst in *. cbn [elapsed] in Hlt, Hge.
    destruct (window_emits_first u _ rest (create t0) (create_idle t0) Hlt Hge)
      as (H1 & H2 & H3).
    rewrite <- app_comm_cons. rewrite H1, H2. repeat split.
    apply H3.
Qed.

(** Four calls, 100, 100 and 99 units apart, the third for another
    document; one more unit of time completes the window. *)
Lemma update_burst_emits_once_witness :
  let later := [(100, u1); (100, u2); (99, u1)]%N in
  updates (burst u1 later) = 4%nat
  /\ emitted (run (burst u1 later) (create 7)) = []
  /\ emitted (run (burst u1 later ++ [Sleep 1]) (create 7)) = [u1]
  /\ _waiting (provider (run (burst u1 later ++ [Sleep 1]) (create 7)))
     = false.
Proof.
  apply (update_burst_emits_once u1 4 [(100, u1); (100, u2); (99, u1)]%N
           1%N 7%N); cbn; lia.
Defined.

(** C2: a provider never has more than one timer in flight, and the flag
    is set exactly while that timer is; with the flag set, [update u']
    returns the state as it was (the timer keeps its deadline and its
    URI), so the change emitted when the timer is due carries the armed
    URI and not [u']. *)
Theorem one_timer_in_flight :
  (forall w, reachable w ->
     (List.length (timers w) <= 1)%nat
     /\ (_waiting (provider w) = true <-> timers w <> []))
  /\ (forall w u', _waiting (provider w) = true -> update u' w = w)
  /\ (forall w u deadline u' d,
        reachable w -> timers w = [(deadline, FireChange u)] ->
        (deadline <= now w + d)%N ->
        emitted (sleep d (update u' w)) = (emitted w ++ [u])%list).
Proof.
  split; [| split].
  - intros w Hr.
    destruct (reachable_idle_or_armed w Hr)
      as [[Hw Ht] | (uri & deadline & Hw & Ht)]; rewrite Hw, Ht; cbn.
    + split; [lia |]. split; [discriminate | congruence].
    + split; [lia |]. split; [discriminate | reflexivity].
  - intros w u'. apply update_when_waiting.
  - intros w u deadline u' d Hr Ht Hle.
    destruct (reachable_idle_or_armed w Hr)
      as [[_ Ht'] | (uri & deadline' & Hw & Ht')]; [congruence |].
    rewrite (update_when_waiting u' w Hw).
    apply (sleep_to_deadline u deadline d w); [split |]; assumption.
Qed.

Lemma one_timer_in_flight_witness :
  let w := update u1 (create 0) in
  (List.length (timers w) <= 1)%nat
  /\ update u2 w = w
  /\ emitted (sleep 300 (update u2 w)) = [u1].
Proof.
  assert (Hr : reachable (update u1 (create 0)))
    by exact (reach_step (create 0) (Update u1) (reach_create 0)).
  destruct one_timer_in_flight as (Hinv & Hnoop & Hdrop).
  cbv zeta. split; [| split].
  - exact (proj1 (Hinv _ Hr)).
  - apply Hnoop. reflexivity.
  - apply (Hdrop _ u1 300%N u2 300%N Hr); [reflexivity | cbn; lia].
Defined.

End DebounceProofs.

(** ** The text form of a URI reads back *)

Module UriTextProofs.

Import UriText.

Lemma append_assoc (a b c : string) : (a ++ b) ++ c = a ++ b ++ c.
Proof. induction a as [| x a IH]; cbn; [reflexivity | now rewrite IH]. Qed.

Lemma not_truthy (s : string) : truthy s = false -> s = EmptyString.
Proof.
  unfold truthy. intros H. apply negb_false_iff in H.
  now apply String.eqb_eq in H.
Qed.

(** *** Escapes *)

Lemma decode_encode_char (k : bool) (a : ascii) (t : string) :
  decode (encode_char k a ++ t) = String a (decode t).
Proof.
  destruct a as [[] [] [] [] [] [] [] []]; destruct k;
    try reflexivity; destruct t as [| h1 [| h2 t]]; reflexivity.
Qed.

Lemma decode_encode (k : bool) (s : string) : decode (encode k s) = s.
Proof.
  induction s as [| a s IH]; [reflexivity |]. cbn [encode].
  rewrite decode_encode_char. now rewrite IH.
Qed.

Lemma free_of_app (p : ascii -> bool) (a b : string) :
  free_of p (a ++ b) = free_of p a && free_of p b.
Proof.
  induction a as [| x a IH]; cbn; [reflexivity |].
  rewrite IH. apply andb_assoc.
Qed.

Lemma free_of_weaken (p q : ascii -> bool) (s : string) :
  (forall a, p a = true -> q a = true) ->
  free_of q s = true -> free_of p s = true.
Proof.
  intros Hpq. induction s as [| a s IH]; cbn; [reflexivity |].
  intros H. apply andb_true_iff in H as [Ha Hs]. rewrite (IH Hs).
  destruct (p a) eqn:Hp; [| reflexivity].
  rewrite (Hpq a Hp) in Ha. discriminate.
Qed.

Lemma encode_char_free_path (k : bool) (a : ascii) :
  free_of after_path (encode_char k a) = true.
Proof. destruct a as [[] [] [] [] [] [] [] []]; destruct k; reflexivity. Qed.

Lemma encode_char_free_authority (a : ascii) :
  free_of after_authority (encode_char false a) = true.
Proof. destruct a as [[] [] [] [] [] [] [] []]; reflexivity. Qed.

Lemma encode_free_path (k : bool) (s : string) :
  free_of after_path (encode k s) = true.
Proof.
  induction s as [| a s IH]; [reflexivity |]. cbn [encode].
  now rewrite free_of_app, encode_char_free_path, IH.
Qed.

Lemma encode_free_authority (s : string) :
  free_of after_authority (encode false s) = true.
Proof.
  induction s as [| a s IH]; [reflexivity |]. cbn [encode].
  now rewrite free_of_app, encode_char_free_authority, IH.
Qed.

Lemma hash_is_after_path (a : ascii) :
  PlainHost.is_char "#" a = true -> after_path a = true.
Proof.
  unfold PlainHost.is_char, after_path, PlainHost.any_of. cbn.
  intros ->. now rewrite orb_true_r.
Qed.

Lemma after_path_is_after_authority (a : ascii) :
  after_path a = true -> after_authority a = true.
Proof.
  unfold after_path, after_authority, PlainHost.any_of. cbn.
  intros ->. apply orb_true_r.
Qed.

(** *** Splitting *)

Lemma break_free (p : ascii -> bool) (a b : string) :
  free_of p a = true -> stops_at p b = true ->
  PlainHost.break p (a ++ b) = (a, b).
Proof.
  intros Ha Hb. induction a as [| x a IH]; cbn.
  - destruct b as [| y b]; [reflexivity |]. cbn in Hb |- *. now rewrite Hb.
  - cbn in Ha. apply andb_true_iff in Ha as [Hx Ha].
    apply negb_true_iff in Hx. rewrite Hx, (IH Ha). reflexivity.
Qed.

Lemma break_split (p : ascii -> bool) (x t : string) :
  stops_at p t = true ->
  exists a x2,
    PlainHost.break p (x ++ t) = (a, x2 ++ t) /\ x = a ++ x2.
Proof.
  intros Ht. induction x as [| c x (a & x2 & Hb & Hx)]; cbn.
  - exists EmptyString, EmptyString. split; [| reflexivity].
    destruct t as [| y t]; [reflexivity |]. cbn in Ht |- *. now rewrite Ht.
  - destruct (p c).
    + exists EmptyString, (String c x). split; reflexivity.
    + exists (String c a), x2. rewrite Hb, Hx. split; reflexivity.
Qed.

Lemma stops_weaken (p q : ascii -> bool) (t : string) :
  (forall a, p a = true -> q a = true) ->
  stops_at p t = true -> stops_at q t = true.
Proof.
  intros Hpq. destruct t as [| a t]; [reflexivity |]. cbn. apply Hpq.
Qed.


Lemma starts_with_nil (s : string) :
  PlainHost.starts_with EmptyString s = true.
Proof. destruct s; reflexivity. Qed.

Lemma starts_with_same (a : ascii) (p s : string) :
  PlainHost.starts_with (String a p) (String a s)
  = PlainHost.starts_with p s.
Proof.
  unfold PlainHost.starts_with. cbn.
  destruct (ascii_dec a a); [reflexivity | contradiction].
Qed.

Lemma starts_with_other (a b : ascii) (p s : string) :
  a <> b -> PlainHost.starts_with (String a p) (String b s) = false.
Proof.
  intros H. unfold PlainHost.starts_with. cbn.
  destruct (ascii_dec a b); [contradiction | reflexivity].
Qed.

(** A text with a scheme that can be read back: the scheme is found, and
    the rest is read from the colon on. *)
Lemma parse_after_scheme (scheme rest : string) :
  scheme_ok scheme = true ->
  PlainHost.parse (scheme ++ String ":" rest)
  = let '(authority, s2) :=
      if PlainHost.starts_with "//" rest
      then PlainHost.break after_authority
             (PlainHost.tail (PlainHost.tail rest))
      else (EmptyString, rest) in
    let '(path, s3) := PlainHost.break after_path s2 in
    let '(query, s4) :=
      if PlainHost.starts_with "?" s3
      then PlainHost.break (PlainHost.is_char "#") (PlainHost.tail s3)
      else (EmptyString, s3) in
    {| Uri.scheme := scheme;
       Uri.authority := authority;
       Uri.path := path;
       Uri.query := query;
       Uri.fragment := PlainHost.tail s4 |}.
Proof.
  unfold scheme_ok. intros H. apply andb_true_iff in H as [Ht Hf].
  unfold PlainHost.parse.
  change (PlainHost.any_of [":"; "/"; "?"; "#"]%char) with separator.
  rewrite (break_free separator scheme (String ":" rest) Hf eq_refl).
  cbv beta iota.
  rewrite starts_with_same, starts_with_nil, Ht. reflexivity.
Qed.

(** What [toString] writes from the query on. *)
Lemma query_and_fragment (q f : string) :
  let t :=
    (if truthy q then "?" ++ encode false q else EmptyString)
    ++ (if truthy f then "#" ++ encode false f else EmptyString) in
  stops_at after_path t = true
  /\ (let '(query, s4) :=
        if PlainHost.starts_with "?" t
        then PlainHost.break (PlainHost.is_char "#") (PlainHost.tail t)
        else (EmptyString, t) in
      (decode query, decode (PlainHost.tail s4))) = (q, f).
Proof.
  assert (Hfree : forall s, free_of (PlainHost.is_char "#") (encode false s)
                            = true).
  { intros s. apply (free_of_weaken _ after_path); [| apply encode_free_path].
    apply hash_is_after_path. }
  cbv zeta.
  destruct (truthy q) eqn:Hq; destruct (truthy f) eqn:Hf;
    try (apply not_truthy in Hq; subst q);
    try (apply not_truthy in Hf; subst f).
  - split; [reflexivity |].
    change (("?" ++ encode false q) ++ "#" ++ encode false f)
      with (String "?" (encode false q ++ String "#" (encode false f))).
    rewrite starts_with_same, starts_with_nil.
    cbv beta iota. cbn [PlainHost.tail].
    rewrite (break_free (PlainHost.is_char "#") (encode false q)
               (String "#" (encode false f)) (Hfree q) eq_refl).
    cbn [PlainHost.tail]. now rewrite !decode_encode.
  - split; [reflexivity |].
    change (("?" ++ encode false q) ++ EmptyString)
      with (String "?" (encode false q ++ EmptyString)).
    rewrite starts_with_same, starts_with_nil.
    cbv beta iota. cbn [PlainHost.tail].
    rewrite (break_free (PlainHost.is_char "#") (encode false q)
               EmptyString (Hfree q) eq_refl).
    cbn [PlainHost.tail]. now rewrite decode_encode.
  - split; [reflexivity |]. cbn [append].
    rewrite starts_with_other by discriminate.
    cbv beta iota. cbn [PlainHost.tail decode]. now rewrite decode_encode.
  - split; reflexivity.
Qed.


Lemma no_slash_at_stop (p t : string) :
  stops_at after_path t = true ->
  PlainHost.starts_with (String "/" p) t = false.
Proof.
  destruct t as [| y t]; [reflexivity |]. cbn [stops_at]. intros Hy.
  apply starts_with_other. intros <-. discriminate.
Qed.

(** Whatever stands between the colon and the question mark, the
    authority step hands on a text that still ends where the query
    begins. *)
Lemma authority_step (x t : string) :
  free_of after_path x = true -> stops_at after_path t = true ->
  exists a x2,
    (if PlainHost.starts_with "//" (x ++ t)
     then PlainHost.break after_authority
            (PlainHost.tail (PlainHost.tail (x ++ t)))
     else (EmptyString, x ++ t)) = (a, x2 ++ t)
    /\ free_of after_path x2 = true.
Proof.
  intros Hx Ht.
  destruct (PlainHost.starts_with "//" (x ++ t)) eqn:Hs;
    [| exists EmptyString, x; auto].
  destruct x as [| c1 [| c2 x1]].
  - cbn [append] in Hs. rewrite (no_slash_at_stop _ t Ht) in Hs.
    discriminate.
  - cbn [append] in Hs.
    destruct (ascii_dec "/" c1) as [<- | Hne].
    + rewrite starts_with_same, (no_slash_at_stop _ t Ht) in Hs.
      discriminate.
    + rewrite (starts_with_other _ _ _ _ Hne) in Hs. discriminate.
  - cbn [append PlainHost.tail].
    destruct (break_split after_authority x1 t) as (a & x2 & Hb & Hx1).
    { apply (stops_weaken after_path); [| exact Ht].
      apply after_path_is_after_authority. }
    exists a, x2. split; [exact Hb |].
    cbn in Hx. apply andb_true_iff in Hx as [_ Hx].
    apply andb_true_iff in Hx as [_ Hx].
    rewrite Hx1, free_of_app in Hx. now apply andb_true_iff in Hx as [_ Hx].
Qed.

(** The query and the fragment of a URI are read back from its text,
    whatever its authority and path, once the scheme can be. *)
Lemma parse_toString_query (v : Uri.t) :
  scheme_ok (Uri.scheme v) = true ->
  Uri.scheme (parse (toString v)) = Uri.scheme v
  /\ Uri.query (parse (toString v)) = Uri.query v
  /\ Uri.fragment (parse (toString v)) = Uri.fragment v.
Proof.
  intros Hok. destruct v as [scheme authority path query fragment].
  cbn [Uri.scheme Uri.query Uri.fragment Uri.authority Uri.path] in *.
  unfold toString, parse.
  cbn [Uri.scheme Uri.query Uri.fragment Uri.authority Uri.path].
  assert (Ht : truthy scheme = true)
    by (unfold scheme_ok in Hok; now apply andb_true_iff in Hok as [Ht _]).
  rewrite Ht.
  destruct (query_and_fragment query fragment) as (Hstop & Hqf).
  cbv zeta in Hstop, Hqf.
  set (t := (if truthy query then "?" ++ encode false query else EmptyString)
            ++ (if truthy fragment then "#" ++ encode false fragment
                else EmptyString)) in *.
  set (slashes := if truthy authority || String.eqb scheme "file"
                  then "//" else EmptyString).
  replace ((scheme ++ ":") ++ slashes ++ encode false authority
           ++ encode true path ++ t)
    with (scheme ++ String ":"
            ((slashes ++ encode false authority ++ encode true path) ++ t)).
  2:{ rewrite !append_assoc. reflexivity. }
  rewrite (parse_after_scheme _ _ Hok).
  destruct (authority_step
              (slashes ++ encode false authority ++ encode true path) t)
    as (a & x2 & Hstep & Hx2); [| exact Hstop |].
  { rewrite !free_of_app, !encode_free_path.
    subst slashes. destruct (truthy authority || String.eqb scheme "file");
      reflexivity. }
  rewrite Hstep. cbv beta iota.
  rewrite (break_free after_path x2 t Hx2 Hstop). cbv beta iota.
  destruct (if PlainHost.starts_with "?" t
            then PlainHost.break (PlainHost.is_char "#") (PlainHost.tail t)
            else (EmptyString, t)) as [q s4].
  cbn [Uri.scheme Uri.query Uri.fragment].
  injection Hqf as -> ->. auto.
Qed.


Lemma encode_char_head (k : bool) (a : ascii) :
  encode_char k a = String a EmptyString
  \/ exists h1 h2,
       encode_char k a = String "%" (String h1 (String h2 EmptyString)).
Proof.
  unfold encode_char.
  destruct (unreserved a || k && Ascii.eqb a "/"); [left | right; eauto].
  reflexivity.
Qed.

(** Escaping a path adds no pair of slashes at its front. *)
Lemma no_double_slash (path t : string) :
  PlainHost.starts_with "//" path = false ->
  stops_at after_path t = true ->
  PlainHost.starts_with "//" (encode true path ++ t) = false.
Proof.
  intros Hp Ht. destruct path as [| c1 path]; cbn [encode append].
  - apply no_slash_at_stop, Ht.
  - rewrite append_assoc.
    destruct (encode_char_head true c1) as [-> | (h1 & h2 & ->)];
      cbn [append]; [| apply starts_with_other; discriminate].
    destruct (ascii_dec "/" c1) as [<- | Hne];
      [| apply starts_with_other, Hne].
    rewrite starts_with_same in Hp |- *.
    destruct path as [| c2 path]; cbn [encode append].
    + apply no_slash_at_stop, Ht.
    + rewrite append_assoc.
      assert (Hc2 : "/"%char <> c2).
      { intros <-. rewrite starts_with_same, starts_with_nil in Hp.
        discriminate. }
      destruct (encode_char_head true c2) as [-> | (h1 & h2 & ->)];
        cbn [append]; apply starts_with_other; [exact Hc2 | discriminate].
Qed.

(** The authority that [toString] wrote is the one read, where the path
    cannot be taken for one. *)
Lemma authority_exact (scheme authority path t : string) :
  (if truthy authority || String.eqb scheme "file"
   then stops_at (PlainHost.is_char "/") path
   else negb (PlainHost.starts_with "//" path)) = true ->
  stops_at after_path t = true ->
  let rest :=
    (if truthy authority || String.eqb scheme "file"
     then "//" else EmptyString)
    ++ encode false authority ++ encode true path ++ t in
  (if PlainHost.starts_with "//" rest
   then PlainHost.break after_authority
          (PlainHost.tail (PlainHost.tail rest))
   else (EmptyString, rest))
  = (encode false authority, encode true path ++ t).
Proof.
  intros Hwf Ht. cbv zeta.
  destruct (truthy authority || String.eqb scheme "file") eqn:Hc.
  - cbn [append]. rewrite !starts_with_same, starts_with_nil.
    cbn [PlainHost.tail].
    apply break_free; [apply encode_free_authority |].
    destruct path as [| c path]; cbn [encode append].
    + apply (stops_weaken after_path); [| exact Ht].
      apply after_path_is_after_authority.
    + cbn in Hwf. unfold PlainHost.is_char in Hwf.
      apply Ascii.eqb_eq in Hwf. subst c. reflexivity.
  - apply orb_false_iff in Hc as [Ha _]. apply not_truthy in Ha. subst.
    cbn [encode append]. apply negb_true_iff in Hwf.
    now rewrite (no_double_slash path t Hwf Ht).
Qed.

(** A well-formed URI is read back from its text. *)
Lemma parse_toString (v : Uri.t) :
  well_formed v = true -> parse (toString v) = v.
Proof.
  unfold well_formed. intros Hwf. apply andb_true_iff in Hwf as [Hok Hwf].
  destruct v as [scheme authority path query fragment].
  cbn [Uri.scheme Uri.query Uri.fragment Uri.authority Uri.path] in *.
  unfold toString, parse.
  cbn [Uri.scheme Uri.query Uri.fragment Uri.authority Uri.path].
  assert (Ht : truthy scheme = true)
    by (unfold scheme_ok in Hok; now apply andb_true_iff in Hok as [Ht _]).
  rewrite Ht.
  destruct (query_and_fragment query fragment) as (Hstop & Hqf).
  cbv zeta in Hstop, Hqf.
  set (t := (if truthy query then "?" ++ encode false query else EmptyString)
            ++ (if truthy fragment then "#" ++ encode false fragment
                else EmptyString)) in *.
  pose proof (authority_exact scheme authority path t Hwf Hstop) as Hstep.
  cbv zeta in Hstep.
  set (rest := (if truthy authority || String.eqb scheme "file"
                then "//" else EmptyString)
               ++ encode false authority ++ encode true path ++ t) in *.
  replace ((scheme ++ ":") ++ rest) with (scheme ++ String ":" rest)
    by (rewrite append_assoc; reflexivity).
  rewrite (parse_after_scheme _ _ Hok), Hstep. cbv beta iota.
  rewrite (break_free after_path (encode true path) t
             (encode_free_path true path) Hstop).
  cbv beta iota.
  destruct (if PlainHost.starts_with "?" t
            then PlainHost.break (PlainHost.is_char "#") (PlainHost.tail t)
            else (EmptyString, t)) as [q s4].
  cbn [Uri.scheme Uri.query Uri.fragment Uri.authority Uri.path].
  injection Hqf as -> ->. now rewrite !decode_encode.
Qed.

End UriTextProofs.

(** ** Preview URIs, listeners and telemetry *)

Module ExtensionProofs.

Import Extension Samples.

(** C3: deriving the preview URI of [u], writing it out and parsing it
    back gives a URI whose query is [u.toString()], for every [u]; and
    the URI that [showSource] parses out of that query prints like [u],
    for every well-formed [u]: the original is recovered from the query. *)
Theorem preview_uri_reads_back (h : Host) (u : Uri.t) :
  Uri.query
    (UriText.parse
       (UriText.toString (getMarkdownUri (host := UriText.host h) u)))
  = UriText.toString u
  /\ (UriText.well_formed u = true ->
      UriText.toString
        (docUri (host := UriText.host h)
           (UriText.parse
              (UriText.toString (getMarkdownUri (host := UriText.host h) u))))
      = UriText.toString u).
Proof.
  assert (Hq : Uri.query
                 (UriText.parse
                    (UriText.toString
                       (getMarkdownUri (host := UriText.host h) u)))
               = UriText.toString u).
  { destruct (UriTextProofs.parse_toString_query
                (getMarkdownUri (host := UriText.host h) u) eq_refl)
      as (_ & Hq & _).
    exact Hq. }
  split; [exact Hq |].
  intros Hwf. unfold docUri. rewrite Hq.
  change (@uri_parse (UriText.host h)) with UriText.parse.
  now rewrite (UriTextProofs.parse_toString u Hwf).
Qed.

Lemma preview_uri_reads_back_witness :
  Uri.query
    (UriText.parse
       (UriText.toString
          (getMarkdownUri (host := UriText.host PlainHost.host) notes)))
  = "file://host%20name/my%20docs/a%3Fb%23c%2541.md?x%3D1%26y%3D%232#top"
  /\ UriText.toString
       (docUri (host := UriText.host PlainHost.host)
          (UriText.parse
             (UriText.toString
                (getMarkdownUri (host := UriText.host PlainHost.host) notes))))
     = "file://host%20name/my%20docs/a%3Fb%23c%2541.md?x%3D1%26y%3D%232#top".
Proof.
  destruct (preview_uri_reads_back PlainHost.host notes) as (Hq & Hback).
  split; [exact Hq | apply Hback; reflexivity].
Defined.

(** With a visible editor on the original document, [showSource] of the
    derived preview URI reveals that editor. *)
Lemma showSource_finds_editor {host : Host} (u : Uri.t)
    (editor : TextEditor.t) (others : list TextEditor.t) (tel : bool)
    (active : option TextEditor.t) :
  TextDocument.uri (TextEditor.document editor) = u ->
  uri_parse (uri_toString u) = u ->
  showSource (mkWindow active (editor :: others) tel)
             (Some (getMarkdownUri u))
  = [ShowTextDocument u (TextEditor.viewColumn editor)].
Proof.
  intros Hu Hrt. subst u. unfold showSource, docUri. cbn.
  rewrite Hrt, String.eqb_refl. reflexivity.
Qed.

(** C10: a document whose URI has the scheme [markdown] is no Markdown
    file for the extension, whatever its language id, and the save and
    change listeners leave the provider as it is for such a document:
    they do not call [update]. *)
Theorem preview_document_never_updates {host : Host}
    (document : TextDocument.t) (w : Debounce.World) :
  Uri.scheme (TextDocument.uri document) = "markdown" ->
  isMarkdownFile document = false
  /\ onDidSaveTextDocument document w = w
  /\ onDidChangeTextDocument document w = w.
Proof.
  intros Hs.
  assert (H : isMarkdownFile document = false).
  { unfold isMarkdownFile. rewrite Hs. cbn. apply andb_false_r. }
  unfold onDidSaveTextDocument, onDidChangeTextDocument.
  rewrite H. auto.
Qed.

Lemma preview_document_never_updates_witness :
  isMarkdownFile preview_document = false
  /\ onDidSaveTextDocument (host := PlainHost.host) preview_document
       (Debounce.create 0) = Debounce.create 0
  /\ onDidChangeTextDocument (host := PlainHost.host) preview_document
       (Debounce.create 0) = Debounce.create 0.
Proof.
  apply (preview_document_never_updates (host := PlainHost.host)
           preview_document (Debounce.create 0)).
  reflexivity.
Defined.

(** A source document, on the other hand, arms the timer for its preview
    URI. *)
Lemma source_document_updates {host : Host} (document : TextDocument.t)
    (w : Debounce.World) :
  isMarkdownFile document = true ->
  onDidChangeTextDocument document w
  = Debounce.update (getMarkdownUri (TextDocument.uri document)) w.
Proof.
  intros H. unfold onDidChangeTextDocument. rewrite H. reflexivity.
Qed.

(** The telemetry event of [showPreview]: sent only with a reporter, named
    [openPreview], [where] following the side-by-side flag, and [how]
    being [action] for a call with a URI and the source's literal
    otherwise. *)
Lemma openPreview_event_fields {host : Host} (win : Window)
    (uri : option Uri.t) (sideBySide : bool) (name : string)
    (properties : list (string * string)) :
  In (SendTelemetryEvent name properties) (showPreview win uri sideBySide) ->
  telemetryReporter win = true
  /\ name = "openPreview"
  /\ properties
     = [("where", if sideBySide then "sideBySide" else "inPlace");
        ("how", match uri with Some _ => "action" | None => "pallete" end)].
Proof.
  unfold showPreview.
  destruct uri as [u |]; [| destruct (activeTextEditor win) as [ed |]];
    cbn; destruct (telemetryReporter win); cbn; intros H;
    repeat (destruct H as [H | H]; try discriminate; try contradiction);
    inversion H; subst; auto.
Qed.

(** C8: run from the command palette (no URI argument) with an editor
    open and a telemetry reporter, [showPreview] sends [openPreview] with
    [where] = [inPlace] and [how] = [pallete], which is neither [action]
    nor [palette]. *)
Theorem showPreview_palette_telemetry :
  showPreview (host := PlainHost.host) window_with_reporter None false
  = [PreviewHtml (getMarkdownUri (host := PlainHost.host) readme) (Some One)
       "Preview 'readme.md'";
     SendTelemetryEvent "openPreview"
       [("where", "inPlace"); ("how", "pallete")]]
  /\ "pallete" <> "palette"
  /\ "pallete" <> "action".
Proof.
  repeat split; discriminate.
Qed.

End ExtensionProofs.

(** ** The renderer hook and stylesheet links *)

Module ContentProviderProofs.

Import ContentProvider.

(** C6: without a language tag, with an empty or unrecognised one, or
    when highlighting a recognised language throws, [highlight] returns
    the text [<pre class="hljs"><code><div>], the escaped code and
    [</div></code></pre>]; the highlighter's own output appears only when a
    recognised language was highlighted without an exception, between the
    same opening and closing texts. *)
Theorem highlight_falls_back_to_escaped {hl : Highlighter} (str : string)
    (lang : option string) :
  ((lang = None
    \/ exists l, lang = Some l
         /\ (truthy l = false \/ getLanguage l = false
             \/ hljs_highlight l str true = Throws)) ->
   highlight str lang
   = "<pre class=" ++ String (ascii_of_nat 34) EmptyString ++ "hljs"
     ++ String (ascii_of_nat 34) EmptyString ++ "><code><div>"
     ++ escapeHtml str ++ "</div></code></pre>")
  /\ (forall l v,
        lang = Some l -> truthy l = true -> getLanguage l = true ->
        hljs_highlight l str true = Value v ->
        highlight str lang
        = "<pre class=" ++ String (ascii_of_nat 34) EmptyString ++ "hljs"
          ++ String (ascii_of_nat 34) EmptyString ++ "><code><div>"
          ++ v ++ "</div></code></pre>").
Proof.
  split.
  - intros [-> | (l & -> & H)]; [reflexivity |]. unfold highlight.
    destruct (truthy l) eqn:Ht, (getLanguage l) eqn:Hg; cbn [andb];
      try reflexivity.
    destruct H as [H | [H | H]]; try discriminate. rewrite H. reflexivity.
  - intros l v -> Ht Hg Hv. unfold highlight. rewrite Ht, Hg, Hv.
    reflexivity.
Qed.

Lemma highlight_falls_back_to_escaped_witness :
  highlight (hl := PlainHost.highlighter) "a<b" None
    = "<pre class=" ++ String (ascii_of_nat 34) EmptyString ++ "hljs"
      ++ String (ascii_of_nat 34) EmptyString
      ++ "><code><div>a&lt;b</div></code></pre>"
  /\ highlight (hl := PlainHost.highlighter) "a<b" (Some "klingon")
    = "<pre class=" ++ String (ascii_of_nat 34) EmptyString ++ "hljs"
      ++ String (ascii_of_nat 34) EmptyString
      ++ "><code><div>a&lt;b</div></code></pre>"
  /\ highlight (hl := PlainHost.highlighter) "<boom>" (Some "js")
    = "<pre class=" ++ String (ascii_of_nat 34) EmptyString ++ "hljs"
      ++ String (ascii_of_nat 34) EmptyString
      ++ "><code><div>&lt;boom&gt;</div></code></pre>"
  /\ highlight (hl := PlainHost.highlighter) "a<b" (Some "js")
    = "<pre class=" ++ String (ascii_of_nat 34) EmptyString ++ "hljs"
      ++ String (ascii_of_nat 34) EmptyString
      ++ "><code><div><span class=hljs-x>a&lt;b</span></div></code></pre>".
Proof.
  split; [| split; [| split]].
  - apply (proj1 (highlight_falls_back_to_escaped
                    (hl := PlainHost.highlighter) "a<b" None)).
    left. reflexivity.
  - apply (proj1 (highlight_falls_back_to_escaped
                    (hl := PlainHost.highlighter) "a<b" (Some "klingon"))).
    right. exists "klingon". split; [reflexivity |]. right. left.
    reflexivity.
  - apply (proj1 (highlight_falls_back_to_escaped
                    (hl := PlainHost.highlighter) "<boom>" (Some "js"))).
    right. exists "js". split; [reflexivity |]. right. right. reflexivity.
  - apply (proj2 (highlight_falls_back_to_escaped
                    (hl := PlainHost.highlighter) "a<b" (Some "js")) "js"
             "<span class=hljs-x>a&lt;b</span>");
      reflexivity.
Defined.

(** The four branches of [fixHref] for a non-empty [href], as the host's
    answers select them. *)
Lemma fixHref_branches {host : Host} (rootPath : option string)
    (resource : Uri.t) (href : string) :
  truthy href = true ->
  (truthy (Uri.scheme (uri_parse href)) = true ->
   fixHref rootPath resource href = href)
  /\ (truthy (Uri.scheme (uri_parse href)) = false ->
      isAbsolute href = true ->
      fixHref rootPath resource href = uri_toString (uri_file href))
  /\ (truthy (Uri.scheme (uri_parse href)) = false ->
      isAbsolute href = false ->
      forall root, rootPath = Some root -> truthy root = true ->
      fixHref rootPath resource href
      = uri_toString (uri_file (path_join root href)))
  /\ (truthy (Uri.scheme (uri_parse href)) = false ->
      isAbsolute href = false ->
      truthy_opt rootPath = false ->
      fixHref rootPath resource href
      = uri_toString
          (uri_file (path_join (path_dirname (uri_fsPath resource)) href))).
Proof.
  intros Hh. unfold fixHref. rewrite Hh. repeat split.
  - intros ->. reflexivity.
  - intros -> ->. reflexivity.
  - intros -> -> root -> ->. reflexivity.
  - intros -> -> Hr. destruct rootPath as [root |]; [| reflexivity].
    cbn in Hr. rewrite Hr. reflexivity.
Qed.

(** C7: an absolute local path that begins with a drive letter is not
    returned as a file URI: the text before its colon is read as a URL
    scheme, so the first case applies and [fixHref] returns the path as it
    was given, which does not begin with [file:], whatever the paths of
    the host, also on a host for which the path is absolute. *)
Theorem fixHref_drive_letter_path (h : Host) (rootPath : option string)
    (resource : Uri.t) :
  Uri.scheme (UriText.parse "C:\styles\my.css") = "C"
  /\ fixHref (host := UriText.host h) rootPath resource "C:\styles\my.css"
     = "C:\styles\my.css"
  /\ isAbsolute (host := DriveHost.host) "C:\styles\my.css" = true
  /\ fixHref (host := DriveHost.host) rootPath resource "C:\styles\my.css"
     = "C:\styles\my.css"
  /\ String.prefix "file:" "C:\styles\my.css" = false.
Proof.
  split; [reflexivity |]. split; [reflexivity |]. split; [reflexivity |].
  split; reflexivity.
Qed.

(** An empty [href] is returned as it is. *)
Lemma fixHref_empty {host : Host} (rootPath : option string)
    (resource : Uri.t) :
  fixHref rootPath resource EmptyString = EmptyString.
Proof. reflexivity. Qed.

End ContentProviderProofs.

(** ** Front matter *)

Module FrontMatterProofs.

Import RegExp FrontMatter Samples.

Local Open Scope list_scope.

Lemma m_star (len : nat) (greedy : bool) (r1 : RegExp.t) (x : text)
    (k : cont) :
  m len (Star greedy r1) x k
  = star_loop len greedy r1 k (S (List.length x)) x.
Proof. reflexivity. Qed.

Lemma m_seq (len : nat) (r1 r2 : RegExp.t) (x : text) (k : cont) :
  m len (Seq r1 r2) x k = m len r1 x (fun y => m len r2 y k).
Proof. reflexivity. Qed.

Lemma orelse_none_r (a : option text) : orelse a None = a.
Proof. destruct a; reflexivity. Qed.

Lemma one_ext (p : N -> bool) (x : text) (k k' : cont) :
  (forall y, k y = k' y) -> one p x k = one p x k'.
Proof.
  intros H. destruct x as [| c x]; cbn; [reflexivity |].
  destruct (p c); [apply H | reflexivity].
Qed.

(** The matcher only looks at what its continuation returns. *)
Lemma m_ext (len : nat) (r : RegExp.t) :
  forall (x : text) (k k' : cont),
    (forall y, k y = k' y) -> m len r x k = m len r x k'.
Proof.
  induction r as [| c | | cs | r1 IH1 r2 IH2 | r1 IH1 r2 IH2
                  | greedy r1 IH1 | n r1 IH1]; intros x k k' H.
  - cbn. destruct (Nat.eqb _ _); [apply H | reflexivity].
  - apply one_ext, H.
  - apply one_ext, H.
  - apply one_ext, H.
  - cbn. apply IH1. intros y. apply IH2, H.
  - cbn. rewrite (IH1 x k k' H), (IH2 x k k' H). reflexivity.
  - rewrite !m_star. generalize (S (List.length x)) as fuel.
    intros fuel. revert x.
    induction fuel as [| fuel IHf]; intros x; cbn.
    + rewrite (H x). reflexivity.
    + rewrite (H x).
      rewrite (IH1 x _ (fun y => if Nat.eqb (List.length y) (List.length x)
                                 then None
                                 else star_loop len greedy r1 k' fuel y)).
      * reflexivity.
      * intros y. destruct (Nat.eqb _ _); [reflexivity | apply IHf].
  - cbn. revert x. induction n as [| n IHn]; intros x; [apply H |].
    apply IH1. intros y. apply IHn.
Qed.


(** *** The pieces of the pattern *)

Lemma m_dashes (len : nat) (s : text) (k : cont) :
  m len (Rep 3 (Chr DASH)) s k
  = match after_dashes s with
    | Some s' => k s'
    | None => None
    end.
Proof.
  destruct s as [| d1 [| d2 [| d3 s]]]; cbn.
  - reflexivity.
  - destruct (d1 =? DASH)%N; reflexivity.
  - destruct (d1 =? DASH)%N; [| reflexivity].
    destruct (d2 =? DASH)%N; reflexivity.
  - destruct (d1 =? DASH)%N; [| reflexivity].
    destruct (d2 =? DASH)%N; [| reflexivity].
    destruct (d3 =? DASH)%N; reflexivity.
Qed.

Lemma m_newline (len : nat) (s : text) (k : cont) :
  m len newline s k
  = match after_newline s with
    | Some s' => k s'
    | None => None
    end.
Proof.
  destruct s as [| c s]; [reflexivity |]. cbn.
  destruct (N.eqb_spec c LF) as [-> | Hlf].
  - reflexivity.
  - destruct (c =? CR)%N; [| reflexivity].
    destruct s as [| c' s]; [reflexivity |]. cbn.
    destruct (c' =? LF)%N; [| reflexivity].
    apply orelse_none_r.
Qed.

Lemma blank_not_newline (c : N) (s : text) :
  blank c = true -> after_newline (c :: s) = None.
Proof.
  unfold blank. intros H. apply orb_true_iff in H.
  destruct H as [H | H]; apply N.eqb_eq in H; subst; reflexivity.
Qed.

Lemma length_tail_neq {A : Type} (c : A) (s : list A) :
  Nat.eqb (List.length s) (List.length (c :: s)) = false.
Proof. apply Nat.eqb_neq. cbn. lia. Qed.

Lemma class_blank (c : N) :
  existsb (N.eqb c) [SPACE; TAB] = blank c.
Proof. unfold blank. cbn. now rewrite orb_false_r. Qed.

(** Greedy blanks before a newline: no backtracking into the blanks can
    succeed, since a blank is no newline. *)
Lemma blanks_loop (len : nat) (k : cont) (s : text) :
  forall fuel, (List.length s < fuel)%nat ->
    star_loop len true (Class [SPACE; TAB]) (fun y => m len newline y k)
      fuel s
    = m len newline (skip_blanks s) k.
Proof.
  induction s as [| c s IH]; intros fuel Hf.
  - destruct fuel as [| fuel]; [lia |]. reflexivity.
  - destruct fuel as [| fuel]; [cbn in Hf; lia |].
    cbn [star_loop m one skip_blanks]. rewrite class_blank.
    destruct (blank c) eqn:Hb.
    + rewrite length_tail_neq.
      change ((fix loop (fuel0 : nat) (x : text) {struct fuel0} := _) fuel s)
        with (star_loop len true (Class [SPACE; TAB])
                (fun y => m len newline y k) fuel s).
      rewrite IH by (cbn in Hf; lia).
      rewrite (m_newline len (c :: s)), (blank_not_newline c s Hb).
      apply orelse_none_r.
    + reflexivity.
Qed.

Lemma m_blanks_newline (len : nat) (s : text) (k : cont) :
  m len blanks s (fun y => m len newline y k)
  = m len newline (skip_blanks s) k.
Proof.
  unfold blanks. rewrite m_star. apply blanks_loop. lia.
Qed.


Lemma option_eta (o : option text) :
  match o with Some s => Some s | None => None end = o.
Proof. destruct o; reflexivity. Qed.

(** The tail of the pattern: a newline, then a delimiter line. *)
Lemma m_closing (len : nat) (s : text) :
  m len (newline ;; Rep 3 (Chr DASH) ;; blanks ;; newline)%re s Some
  = after_closing s.
Proof.
  rewrite m_seq, m_newline. unfold after_closing.
  destruct (after_newline s) as [s1 |]; [| reflexivity].
  rewrite m_seq, m_dashes. unfold after_delimiter_line.
  destruct (after_dashes s1) as [s2 |]; [| reflexivity].
  rewrite m_seq, m_blanks_newline, m_newline. apply option_eta.
Qed.

(** The lazy loop: at each position the closing delimiter is tried first,
    and only one way of stepping on exists. *)
Lemma body_loop (len : nat) :
  forall fuel s, (List.length s < fuel)%nat ->
    star_loop len false (Alt Dot newline) after_closing fuel s = scan s.
Proof.
  induction fuel as [| fuel IH]; intros s Hf; [lia |].
  cbn [star_loop].
  destruct s as [| c s].
  - reflexivity.
  - cbn [scan]. destruct (after_closing (c :: s)) as [rest |] eqn:Hc;
      cbn [orelse]; [reflexivity |].
    cbn [m]. rewrite m_newline. cbn [one].
    change ((fix loop (fuel0 : nat) (x : text) {struct fuel0} := _) fuel)
      with (star_loop len false (Alt Dot newline) after_closing fuel).
    destruct (lineTerminator c) eqn:Hlt; cbn [negb].
    + cbn [orelse after_newline].
      destruct (c =? LF)%N.
      * rewrite length_tail_neq. apply IH. cbn in Hf. lia.
      * destruct (c =? CR)%N; [| reflexivity].
        destruct s as [| c' s]; [reflexivity |].
        destruct (c' =? LF)%N; [| reflexivity].
        replace (Nat.eqb (List.length s) (List.length (c :: c' :: s)))
          with false by (symmetry; apply Nat.eqb_neq; cbn; lia).
        apply IH. cbn in Hf. lia.
    + rewrite length_tail_neq, IH by (cbn in Hf; lia).
      assert (Hn : after_newline (c :: s) = None).
      { unfold lineTerminator in Hlt.
        apply orb_false_iff in Hlt as [Hlt _].
        apply orb_false_iff in Hlt as [Hlt _].
        apply orb_false_iff in Hlt as [Hlf Hcr].
        cbn. unfold LF, CR. now rewrite Hlf, Hcr. }
      rewrite Hn. apply orelse_none_r.
Qed.

Lemma m_bol (len : nat) (r : RegExp.t) (s : text) (k : cont) :
  m len (Bol ;; r)%re s k
  = if Nat.eqb (List.length s) len then m len r s k else None.
Proof. reflexivity. Qed.

(** The whole pattern at the start of the input. *)
Lemma m_pattern (s : text) :
  m (List.length s) pattern s Some
  = match after_delimiter_line s with
    | Some s' => scan s'
    | None => None
    end.
Proof.
  unfold pattern. rewrite m_bol, Nat.eqb_refl.
  rewrite m_seq, m_dashes. unfold after_delimiter_line.
  destruct (after_dashes s) as [s1 |]; [| reflexivity].
  rewrite m_seq.
  rewrite (m_ext _ blanks s1 _
             (fun y => m (List.length s) newline y
                (fun z => m (List.length s)
                   (Star false (Alt Dot newline) ;; newline ;;
                    Rep 3 (Chr DASH) ;; blanks ;; newline)%re z Some)))
    by reflexivity.
  rewrite m_blanks_newline, m_newline.
  destruct (after_newline (skip_blanks s1)) as [s2 |]; [| reflexivity].
  rewrite m_seq.
  rewrite (m_ext _ _ s2 _ after_closing) by (intros y; apply m_closing).
  rewrite m_star. apply body_loop. lia.
Qed.

(** Away from the start of the input the pattern fails at [^]. *)
Lemma exec_from_anchored (len : nat) (r : RegExp.t) (s : text) :
  forall i, (List.length s < len)%nat ->
    exec_from len (Bol ;; r)%re i s = None.
Proof.
  induction s as [| c s IH]; intros i Hlt; cbn [exec_from];
    rewrite m_bol.
  - destruct (Nat.eqb_spec (@List.length N []) len) as [E | _];
      [cbn in E; lia | reflexivity].
  - destruct (Nat.eqb_spec (List.length (c :: s)) len) as [E | _];
      [lia |].
    apply IH. cbn in Hlt. lia.
Qed.

Lemma exec_pattern (s : text) :
  exec pattern s
  = match m (List.length s) pattern s Some with
    | Some rest => Some (0%nat, rest)
    | None => None
    end.
Proof.
  unfold exec. destruct s as [| c s]; cbn [exec_from].
  - destruct (m _ pattern [] Some); reflexivity.
  - destruct (m _ pattern (c :: s) Some); [reflexivity |].
    apply exec_from_anchored. cbn. lia.
Qed.

(** What [getDocumentContentForPreview] computes when front matter is
    hidden. *)
Lemma hide_is_strip (document : TextDocument.t) :
  getDocumentContentForPreview "hide" document
  = strip (TextDocument.getText document).
Proof.
  unfold getDocumentContentForPreview, replace_with_empty, strip.
  cbn [String.eqb Ascii.eqb Bool.eqb].
  destruct document as [lang uri s]. cbn [TextDocument.getText].
  rewrite exec_pattern, m_pattern.
  destruct (after_delimiter_line s) as [s' |]; [| reflexivity].
  destruct (scan s'); reflexivity.
Qed.


(** *** Texts the pattern does not match *)

Lemma scan_has_closing (rest : text) :
  forall n s, (List.length s <= n)%nat ->
    scan s = Some rest -> has_closing s = true.
Proof.
  induction n as [| n IH]; intros s Hn Hs.
  - destruct s; [discriminate | cbn in Hn; lia].
  - destruct s as [| c s]; [discriminate |].
    cbn [scan has_closing] in *.
    destruct (after_closing (c :: s)); [reflexivity |].
    cbn in Hn.
    destruct (negb (lineTerminator c)); [apply IH; [lia | exact Hs] |].
    destruct (c =? LF)%N; [apply IH; [lia | exact Hs] |].
    destruct (c =? CR)%N; [| discriminate].
    destruct s as [| c' s]; [discriminate |].
    destruct (c' =? LF)%N; [| discriminate].
    cbn [has_closing]. destruct (after_closing (c' :: s)); [reflexivity |].
    apply IH; [cbn in Hn; lia | exact Hs].
Qed.

(** C5: a text that does not begin with a delimiter line, and a text
    whose opening delimiter line is followed by no closing one, come back
    from the content extraction under [hide] exactly as they went in. *)
Theorem unmatched_front_matter_unchanged (document : TextDocument.t) :
  no_front_matter (TextDocument.getText document) = true
  \/ unclosed_front_matter (TextDocument.getText document) = true ->
  getDocumentContentForPreview "hide" document
  = TextDocument.getText document.
Proof.
  intros H. rewrite hide_is_strip.
  destruct document as [lang uri s]. cbn [TextDocument.getText] in *.
  unfold strip, no_front_matter, unclosed_front_matter in *.
  destruct (after_delimiter_line s) as [s' |]; [| reflexivity].
  destruct H as [H | H]; [discriminate |].
  destruct (scan s') as [rest |] eqn:Hs; [| reflexivity].
  rewrite (scan_has_closing rest (List.length s') s' (le_n _) Hs) in H.
  discriminate.
Qed.


(** *** Blocks the pattern matches *)

Lemma plain_not_newline (c : N) (s : text) :
  plain c = true -> after_newline (c :: s) = None.
Proof.
  unfold plain, lineTerminator. intros H. apply negb_true_iff in H.
  apply orb_false_iff in H as [H _].
  apply orb_false_iff in H as [H _].
  apply orb_false_iff in H as [Hlf Hcr].
  cbn. unfold LF, CR. now rewrite Hlf, Hcr.
Qed.

Lemma after_newline_eol (e : eol) (s : text) :
  after_newline (eol_units e ++ s) = Some s.
Proof. destruct e; reflexivity. Qed.

Lemma skip_blanks_eol (e : eol) (s : text) :
  skip_blanks (eol_units e ++ s) = (eol_units e ++ s)%list.
Proof. destruct e; reflexivity. Qed.

Lemma skip_blanks_line (ws : text) (e : eol) (s : text) :
  forallb blank ws = true ->
  skip_blanks (ws ++ eol_units e ++ s) = (eol_units e ++ s)%list.
Proof.
  induction ws as [| w ws IH]; intros H.
  - apply skip_blanks_eol.
  - cbn in H. apply andb_true_iff in H as [Hw Hws].
    cbn [app skip_blanks]. rewrite Hw. apply IH, Hws.
Qed.

(** A delimiter line is recognised, whatever follows it. *)
Lemma after_delimiter_line_units (l : line) (s : text) :
  is_delimiter (content l) = true ->
  after_delimiter_line (line_units l ++ s) = Some s.
Proof.
  unfold line_units, is_delimiter, after_delimiter_line.
  destruct (content l) as [| d1 [| d2 [| d3 ws]]]; try discriminate.
  intros H. apply andb_true_iff in H as [H Hws].
  rewrite <- app_assoc. cbn [app after_dashes]. rewrite H.
  rewrite skip_blanks_line by exact Hws. apply after_newline_eol.
Qed.

Lemma after_dashes_inv (s s' : text) :
  after_dashes s = Some s' -> s = DASH :: DASH :: DASH :: s'.
Proof.
  destruct s as [| d1 [| d2 [| d3 t]]]; try discriminate. cbn.
  destruct (N.eqb_spec d1 DASH); [| discriminate].
  destruct (N.eqb_spec d2 DASH); [| discriminate].
  destruct (N.eqb_spec d3 DASH); [| discriminate].
  cbn. intros [= ->]. congruence.
Qed.

Lemma blanks_before_newline (ws : text) (e : eol) (s r : text) :
  forallb plain ws = true ->
  after_newline (skip_blanks (ws ++ eol_units e ++ s)) = Some r ->
  forallb blank ws = true.
Proof.
  induction ws as [| w ws IH]; intros Hp H; [reflexivity |].
  cbn in Hp. apply andb_true_iff in Hp as [Hw Hws].
  cbn [app skip_blanks forallb] in *.
  destruct (blank w).
  - apply IH; assumption.
  - rewrite (plain_not_newline w _ Hw) in H. discriminate.
Qed.

Lemma eol_head_not_dash (e : eol) (s t : text) :
  (eol_units e ++ s)%list <> DASH :: t.
Proof. destruct e; discriminate. Qed.

(** A line that is no delimiter line is not taken for one. *)
Lemma after_delimiter_line_other (l : line) (s : text) :
  line_ok l = true -> is_delimiter (content l) = false ->
  after_delimiter_line (line_units l ++ s) = None.
Proof.
  unfold line_ok, line_units. fold plain. intros Hok Hnd.
  destruct (after_delimiter_line ((content l ++ eol_units (ending l)) ++ s))
    as [r |] eqn:E; [| reflexivity].
  exfalso. unfold after_delimiter_line in E.
  destruct (after_dashes _) as [t |] eqn:Ed; [| discriminate].
  apply after_dashes_inv in Ed. rewrite <- app_assoc in Ed.
  destruct (content l) as [| d1 [| d2 [| d3 ws]]]; cbn [app] in Ed.
  - exact (eol_head_not_dash _ _ _ Ed).
  - injection Ed as _ Ed. exact (eol_head_not_dash _ _ _ Ed).
  - injection Ed as _ _ Ed. exact (eol_head_not_dash _ _ _ Ed).
  - injection Ed as -> -> -> <-.
    cbn in Hok. cbn [is_delimiter] in Hnd.
    rewrite !N.eqb_refl in Hnd. cbn in Hnd.
    rewrite (blanks_before_newline ws (ending l) s r) in Hnd;
      [discriminate | exact Hok | exact E].
Qed.


Lemma scan_plain (cs s : text) :
  forallb plain cs = true -> scan (cs ++ s) = scan s.
Proof.
  induction cs as [| c cs IH]; intros H; [reflexivity |].
  cbn in H. apply andb_true_iff in H as [Hc Hcs].
  cbn [app scan]. unfold after_closing.
  rewrite (plain_not_newline c _ Hc). fold (plain c). rewrite Hc.
  apply IH, Hcs.
Qed.

Lemma scan_eol (e : eol) (s : text) :
  scan (eol_units e ++ s)
  = match after_delimiter_line s with
    | Some rest => Some rest
    | None => scan s
    end.
Proof.
  destruct e; cbn [eol_units app].
  - change (scan (LF :: s))
      with (match after_delimiter_line s with
            | Some rest => Some rest
            | None => scan s
            end).
    reflexivity.
  - change (scan (CR :: LF :: s))
      with (match after_delimiter_line s with
            | Some rest => Some rest
            | None => scan s
            end).
    reflexivity.
Qed.

(** The loop steps over a whole line unless a delimiter line follows. *)
Lemma scan_line (l : line) (s : text) :
  line_ok l = true ->
  scan (line_units l ++ s)
  = match after_delimiter_line s with
    | Some rest => Some rest
    | None => scan s
    end.
Proof.
  intros Hok. unfold line_units. rewrite <- app_assoc.
  rewrite scan_plain by exact Hok. apply scan_eol.
Qed.

Lemma scan_body (closing : line) (rest : text) :
  is_delimiter (content closing) = true ->
  forall (ls : list line) (l : line),
    line_ok l = true ->
    forallb (fun l => line_ok l && negb (is_delimiter (content l))) ls = true ->
    scan (line_units l ++ flat_map line_units ls
          ++ line_units closing ++ rest)
    = Some rest.
Proof.
  intros Hc ls. induction ls as [| l' ls IH]; intros l Hok Hls.
  - rewrite scan_line by exact Hok. cbn [flat_map app].
    now rewrite after_delimiter_line_units.
  - cbn in Hls. apply andb_true_iff in Hls as [Hl' Hls].
    apply andb_true_iff in Hl' as [Hok' Hnd]. apply negb_true_iff in Hnd.
    rewrite scan_line by exact Hok. cbn [flat_map].
    rewrite <- app_assoc.
    rewrite after_delimiter_line_other by assumption.
    apply IH; assumption.
Qed.

(** A block with at least one line between its delimiter lines is
    removed, and what follows it is returned as it is. *)
Lemma block_with_lines_is_stripped (document : TextDocument.t) (b : block)
    (rest : text) :
  TextDocument.getText document = block_units b ++ rest ->
  well_formed b = true -> body b <> [] ->
  getDocumentContentForPreview "hide" document = rest.
Proof.
  unfold well_formed, block_units. intros Htext Hwf Hne.
  apply andb_true_iff in Hwf as [Hwf Hc].
  apply andb_true_iff in Hwf as [Ho Hb].
  rewrite hide_is_strip, Htext. unfold strip.
  rewrite <- !app_assoc.
  rewrite after_delimiter_line_units by exact Ho.
  destruct (body b) as [| l ls]; [congruence |].
  cbn in Hb. apply andb_true_iff in Hb as [Hl Hls].
  apply andb_true_iff in Hl as [Hok _].
  cbn [flat_map]. rewrite <- app_assoc.
  now rewrite (scan_body (closing b) rest Hc ls l Hok Hls).
Qed.

(** A block with no line between its delimiter lines is not removed, unless
    a further delimiter line follows, where the removal then ends. *)
Lemma empty_block_comes_back (document : TextDocument.t) (b : block)
    (rest : text) :
  TextDocument.getText document = block_units b ++ rest ->
  well_formed b = true -> body b = [] ->
  has_closing (line_units (closing b) ++ rest) = false ->
  getDocumentContentForPreview "hide" document
  = TextDocument.getText document.
Proof.
  unfold well_formed, block_units. intros Htext Hwf Hb Hnc.
  apply andb_true_iff in Hwf as [Hwf _].
  apply andb_true_iff in Hwf as [Ho _].
  rewrite hide_is_strip, Htext, Hb. unfold strip. cbn [flat_map app].
  rewrite <- app_assoc, after_delimiter_line_units by exact Ho.
  destruct (scan (line_units (closing b) ++ rest)) as [r |] eqn:E;
    [| reflexivity].
  apply (scan_has_closing r _ _ (le_n _)) in E. congruence.
Qed.

Lemma titled_block_is_stripped :
  getDocumentContentForPreview "hide"
    (markdown_document (block_units titled_block ++ heading))
  = heading.
Proof.
  apply (block_with_lines_is_stripped _ titled_block heading);
    [reflexivity | reflexivity | discriminate].
Qed.

(** With any other value of the setting the text is returned as it is. *)
Lemma other_setting_keeps_content (previewFrontMatter : string)
    (document : TextDocument.t) :
  String.eqb previewFrontMatter "hide" = false ->
  getDocumentContentForPreview previewFrontMatter document
  = TextDocument.getText document.
Proof.
  intros H. unfold getDocumentContentForPreview. now rewrite H.
Qed.

Lemma unmatched_front_matter_unchanged_witness :
  getDocumentContentForPreview "hide" (markdown_document heading) = heading
  /\ getDocumentContentForPreview "hide" (markdown_document unclosed)
     = unclosed.
Proof.
  split.
  - apply (unmatched_front_matter_unchanged (markdown_document heading)).
    left. reflexivity.
  - apply (unmatched_front_matter_unchanged (markdown_document unclosed)).
    right. reflexivity.
Defined.

(** C4: a block whose closing delimiter line directly follows the
    opening one is well formed, yet it is not removed: the text comes
    back whole; and when a later line of three dashes exists, the removal
    runs on to that line and takes the content in between with it. *)
Theorem empty_block_is_not_stripped :
  well_formed empty_block = true
  /\ getDocumentContentForPreview "hide"
       (markdown_document (block_units empty_block ++ heading))
     = block_units empty_block ++ heading
  /\ block_units empty_block ++ heading <> heading
  /\ getDocumentContentForPreview "hide"
       (markdown_document (block_units empty_block ++ intro_rule_more))
     = units "more"
  /\ units "more" <> intro_rule_more.
Proof.
  split; [reflexivity |].
  split; [vm_compute; reflexivity |].
  split; [discriminate |].
  split; [vm_compute; reflexivity | discriminate].
Qed.

End FrontMatterProofs.

(** ** More on the debounce *)

Module DebounceMore.

Import Debounce DebounceProofs Schedules Samples.

Local Open Scope list_scope.

Lemma reachable_timely (w : World) : reachable w -> timely w.
Proof.
  induction 1 as [t0 | w e _ IH].
  - left. apply create_idle.
  - destruct e as [uri' | d]; cbn [step].
    + destruct IH as [Hi | (uri & deadline & Ha & Hd)].
      * right. exists uri', (now w + 300)%N.
        destruct (update_when_idle uri' w Hi) as (Ha & _ & Hn).
        split; [exact Ha | rewrite Hn; lia].
      * right. exists uri, deadline.
        rewrite (update_when_waiting uri' w (proj1 Ha)). auto.
    + destruct IH as [[Hw Ht] | (uri & deadline & Ha & Hd)].
      * left. unfold sleep, idle. rewrite Ht. cbn. auto.
      * destruct (N.lt_ge_cases (now w + d) deadline) as [Hlt | Hge].
        -- right. exists uri, deadline.
           destruct (sleep_before_deadline uri deadline d w Ha Hlt)
             as (Ha' & _ & Hn).
           split; [exact Ha' | rewrite Hn; lia].
        -- left. apply (sleep_to_deadline uri deadline d w Ha Hge).
Qed.

(** X1: every call of [update] is answered within 300 units: from any
    state the provider can reach, a call of [update u] followed by 300
    units or more yields exactly one further change and leaves the
    provider idle; the change carries [u] when the provider was idle, and
    the URI of the timer in flight otherwise. *)
Theorem update_answered_within_window (w : World) (u : Uri.t) (d : N) :
  reachable w -> (300 <= d)%N ->
  exists u0,
    emitted (sleep d (update u w)) = emitted w ++ [u0]
    /\ idle (sleep d (update u w))
    /\ (idle w -> u0 = u)
    /\ (forall armed_uri deadline,
          armed armed_uri deadline w -> u0 = armed_uri).
Proof.
  intros Hr Hd.
  destruct (reachable_timely w Hr) as [Hi | (uri & deadline & Ha & Hdl)].
  - exists u. destruct (update_when_idle u w Hi) as (Ha & He & Hn).
    destruct (sleep_to_deadline u (now w + 300)%N d (update u w) Ha)
      as (Hi' & He' & _); [rewrite Hn; lia |].
    rewrite He', He. repeat split; try apply Hi'.
    intros armed_uri deadline [Hw _]. destruct Hi as [Hw' _]. congruence.
  - exists uri. rewrite (update_when_waiting u w (proj1 Ha)).
    destruct (sleep_to_deadline uri deadline d w Ha) as (Hi' & He' & _);
      [lia |].
    rewrite He'. repeat split; try apply Hi'.
    + intros [Hw _]. destruct Ha as [Hw' _]. congruence.
    + intros armed_uri deadline' [_ Ht]. destruct Ha as [_ Ht'].
      congruence.
Qed.

Lemma update_answered_within_window_witness :
  exists u0,
    emitted (sleep 300 (update u2 (sleep 100 (update u1 (create 0)))))
    = [] ++ [u0]
    /\ u0 = u1.
Proof.
  assert (Hr : reachable (sleep 100 (update u1 (create 0)))).
  { apply (reach_step _ (Sleep 100)). apply (reach_step _ (Update u1)).
    apply reach_create. }
  destruct (update_answered_within_window _ u2 300%N Hr)
    as (u0 & He & _ & _ & Ha); [lia |].
  exists u0. split; [exact He |].
  apply (Ha u1 300%N). split; reflexivity.
Defined.

Lemma run_spaced (calls : list (Uri.t * N)) :
  forall w,
    idle w -> Forall (fun c => (300 <= snd c)%N) calls ->
    emitted (run (spaced calls) w) = emitted w ++ map fst calls
    /\ idle (run (spaced calls) w).
Proof.
  induction calls as [| [u d] calls IH]; intros w Hi Hall.
  - cbn. rewrite app_nil_r. auto.
  - inversion Hall as [| c cs Hd Hall' E]; subst. cbn [snd] in Hd.
    change (run (spaced ((u, d) :: calls)) w)
      with (run (spaced calls) (sleep d (update u w))).
    destruct (update_when_idle u w Hi) as (Ha & He & Hn).
    destruct (sleep_to_deadline u (now w + 300)%N d (update u w) Ha)
      as (Hi' & He' & _); [rewrite Hn; lia |].
    destruct (IH _ Hi' Hall') as (H1 & H2).
    rewrite H1, He', He. cbn [map fst]. rewrite <- app_assoc. auto.
Qed.

(** X2: calls of [update] that are each followed by at least 300 units
    are all answered, in the order of the calls: the provider emits
    exactly the URIs passed, one change per call. *)
Theorem spaced_updates_all_emitted (calls : list (Uri.t * N)) (t0 : N) :
  Forall (fun c => (300 <= snd c)%N) calls ->
  emitted (run (spaced calls) (create t0)) = map fst calls
  /\ idle (run (spaced calls) (create t0)).
Proof.
  intros Hall.
  destruct (run_spaced calls (create t0) (create_idle t0) Hall) as (H1 & H2).
  split; [exact H1 | exact H2].
Qed.

Lemma spaced_updates_all_emitted_witness :
  emitted (run (spaced [(u1, 300); (u2, 450); (u1, 300)]%N) (create 5))
  = [u1; u2; u1].
Proof.
  apply (spaced_updates_all_emitted [(u1, 300); (u2, 450); (u1, 300)]%N 5%N).
  repeat constructor; cbn; lia.
Defined.


Lemma in_enqueue (x y : timer) (q : list timer) :
  In x (enqueue y q) -> x = y \/ In x q.
Proof.
  induction q as [| z q IH]; cbn.
  - intros [H | []]. left. congruence.
  - destruct (fst y <? fst z)%N; cbn.
    + intros [H | H]; [left; congruence | right; exact H].
    + intros [H | H]; [right; left; exact H |].
      destruct (IH H) as [H' | H']; [left | right; right]; exact H'.
Qed.

Lemma length_enqueue (y : timer) (q : list timer) :
  List.length (enqueue y q) = S (List.length q).
Proof.
  induction q as [| z q IH]; cbn; [reflexivity |].
  destruct (fst y <? fst z)%N; cbn; [reflexivity | now rewrite IH].
Qed.

(** Running the timers that are due moves URIs from the queue to the
    emitted changes, in queue order, and does nothing else. *)
Lemma run_due_moves (t : N) (q : list timer) :
  forall p,
    _onDidChange (snd (run_due t q p))
    ++ map (fun x => callback_uri (snd x)) (fst (run_due t q p))
    = _onDidChange p ++ map (fun x => callback_uri (snd x)) q.
Proof.
  induction q as [| [deadline cb] q IH]; intros p; cbn [run_due].
  - reflexivity.
  - destruct (deadline <=? t)%N; [| reflexivity].
    rewrite IH. destruct cb as [uri]. cbn. now rewrite <- app_assoc.
Qed.

Lemma sleep_moves (d : N) (w : World) :
  emitted (sleep d w) ++ pending (sleep d w) = emitted w ++ pending w.
Proof.
  unfold sleep, emitted, pending.
  pose proof (run_due_moves (now w + d) (timers w) (provider w)) as H.
  destruct (run_due (now w + d) (timers w) (provider w)) as [q p].
  exact H.
Qed.

Lemma update_adds (u u' : Uri.t) (w : World) :
  In u' (emitted (update u w) ++ pending (update u w)) ->
  u' = u \/ In u' (emitted w ++ pending w).
Proof.
  unfold update. destruct (negb (_waiting (provider w))); [| auto].
  unfold emitted, pending. cbn. rewrite !in_app_iff, !in_map_iff.
  intros [H | (x & Hx & Hin)]; [right; left; exact H |].
  destruct (in_enqueue _ _ _ Hin) as [-> | Hq].
  - left. cbn in Hx. congruence.
  - right. right. exists x. auto.
Qed.

Lemma update_length (u : Uri.t) (w : World) :
  (List.length (emitted (update u w) ++ pending (update u w))
   <= S (List.length (emitted w ++ pending w)))%nat.
Proof.
  unfold update. destruct (negb (_waiting (provider w))); [| lia].
  unfold emitted, pending. cbn.
  rewrite !length_app, !length_map, length_enqueue.
  unfold timer. lia.
Qed.

(** What has been emitted or is in flight was passed to [update]. *)
Lemma run_sources (es : list event) :
  forall w u,
    In u (emitted (run es w) ++ pending (run es w)) ->
    In u (emitted w ++ pending w) \/ In u (updated es).
Proof.
  induction es as [| e es IH]; intros w u H; [left; exact H |].
  change (run (e :: es) w) with (run es (step e w)) in H.
  destruct (IH _ _ H) as [H' | H'].
  - destruct e as [u' | d]; cbn [step updated] in *.
    + destruct (update_adds _ _ _ H') as [-> | H'']; [right; left | left];
        auto.
    + rewrite sleep_moves in H'. left. exact H'.
  - right. destruct e; cbn [updated]; [right |]; exact H'.
Qed.

Lemma run_count (es : list event) :
  forall w,
    (List.length (emitted (run es w) ++ pending (run es w))
     <= List.length (emitted w ++ pending w) + List.length (updated es))%nat.
Proof.
  induction es as [| e es IH]; intros w; [cbn; lia |].
  change (run (e :: es) w) with (run es (step e w)).
  specialize (IH (step e w)).
  destruct e as [u' | d]; cbn [step updated List.length] in *.
  - pose proof (update_length u' w). lia.
  - rewrite sleep_moves in IH. exact IH.
Qed.

(** X3: the provider invents no change: whatever the calls of [update]
    and the passing of time, every URI it emits was passed to [update] in
    one of the calls, and it emits at most one change per call. *)
Theorem emitted_were_updated (es : list event) (t0 : N) :
  (forall u, In u (emitted (run es (create t0))) -> In u (updated es))
  /\ (List.length (emitted (run es (create t0)))
      <= List.length (updated es))%nat.
Proof.
  split.
  - intros u H.
    destruct (run_sources es (create t0) u) as [H' | H'].
    + apply in_or_app. left. exact H.
    + cbn in H'. contradiction.
    + exact H'.
  - pose proof (run_count es (create t0)) as H.
    rewrite length_app in H. cbn in H. lia.
Qed.

Lemma emitted_were_updated_witness :
  In u1 (updated [Update u1; Sleep 100; Update u2; Sleep 200]).
Proof.
  apply (proj1 (emitted_were_updated
                  [Update u1; Sleep 100; Update u2; Sleep 200] 0%N)).
  left. reflexivity.
Defined.

End DebounceMore.

(** ** More on the listeners and commands *)

Module ExtensionMore.

Import Debounce DebounceProofs Extension Samples.

Lemma configuration_when_waiting (docs : list TextDocument.t) :
  forall w, _waiting (provider w) = true -> onDidChangeConfiguration docs w = w.
Proof.
  unfold onDidChangeConfiguration.
  induction docs as [| d docs IH]; intros w Hw; [reflexivity |].
  cbn [fold_left].
  destruct (String.eqb (Uri.scheme (TextDocument.uri d)) "markdown").
  - rewrite (update_when_waiting _ w Hw). apply IH, Hw.
  - apply IH, Hw.
Qed.

Lemma configuration_when_idle (docs : list TextDocument.t) :
  forall w, idle w ->
    onDidChangeConfiguration docs w
    = match find (fun d => String.eqb (Uri.scheme (TextDocument.uri d))
                                      "markdown") docs with
      | Some d => update (TextDocument.uri d) w
      | None => w
      end.
Proof.
  induction docs as [| d docs IH]; intros w Hi; [reflexivity |].
  cbn [find].
  change (onDidChangeConfiguration (d :: docs) w)
    with (onDidChangeConfiguration docs
            (if String.eqb (Uri.scheme (TextDocument.uri d)) "markdown"
             then update (TextDocument.uri d) w else w)).
  destruct (String.eqb (Uri.scheme (TextDocument.uri d)) "markdown").
  - apply configuration_when_waiting.
    apply (update_when_idle (TextDocument.uri d) w Hi).
  - apply IH, Hi.
Qed.

(** X4: a change of configuration refreshes one preview only: with the
    provider idle and several preview documents open, 300 units after the
    listener has run exactly one change has been emitted, for the first
    preview document in the host's list; with no preview document open the
    provider is left as it was. *)
Theorem configuration_change_refreshes_first_preview
    (docs : list TextDocument.t) (w : World) (d : N) :
  idle w -> (300 <= d)%N ->
  (forall first,
     find (fun doc => String.eqb (Uri.scheme (TextDocument.uri doc))
                                 "markdown") docs = Some first ->
     emitted (sleep d (onDidChangeConfiguration docs w))
     = (emitted w ++ [TextDocument.uri first])%list)
  /\ (find (fun doc => String.eqb (Uri.scheme (TextDocument.uri doc))
                                  "markdown") docs = None ->
      onDidChangeConfiguration docs w = w).
Proof.
  intros Hi Hd. rewrite (configuration_when_idle docs w Hi). split.
  - intros first ->.
    destruct (update_when_idle (TextDocument.uri first) w Hi) as (Ha & He & Hn).
    destruct (sleep_to_deadline _ _ d _ Ha) as (_ & He' & _);
      [rewrite Hn; lia |].
    rewrite He', He. reflexivity.
  - intros ->. reflexivity.
Qed.

Lemma configuration_change_refreshes_first_preview_witness :
  emitted
    (sleep 300
       (onDidChangeConfiguration
          [TextDocument.mk "markdown" readme [];
           TextDocument.mk "markdown" u1 [];
           TextDocument.mk "markdown" u2 []]
          (create 0)))
  = [u1].
Proof.
  destruct (configuration_change_refreshes_first_preview
              [TextDocument.mk "markdown" readme [];
               TextDocument.mk "markdown" u1 [];
               TextDocument.mk "markdown" u2 []]
              (create 0) 300%N (create_idle 0)) as (H & _); [lia |].
  apply (H (TextDocument.mk "markdown" u1 [])). reflexivity.
Defined.

(** X5: an edit or a save of a document is answered, 300 units later, by
    exactly one change for the preview URI derived from the document's URI
    when the document is a Markdown file that is no preview, and by no
    change at all otherwise. *)
Theorem edit_refreshes_preview {host : Host} (document : TextDocument.t)
    (t0 d : N) :
  (300 <= d)%N ->
  emitted (sleep d (onDidChangeTextDocument document (create t0)))
  = (if isMarkdownFile document
     then [getMarkdownUri (TextDocument.uri document)] else [])
  /\ emitted (sleep d (onDidSaveTextDocument document (create t0)))
     = (if isMarkdownFile document
        then [getMarkdownUri (TextDocument.uri document)] else []).
Proof.
  intros Hd. unfold onDidChangeTextDocument, onDidSaveTextDocument.
  destruct (isMarkdownFile document).
  - destruct (update_when_idle (getMarkdownUri (TextDocument.uri document))
                (create t0) (create_idle t0)) as (Ha & He & Hn).
    destruct (sleep_to_deadline _ _ d _ Ha) as (_ & He' & _);
      [rewrite Hn; lia |].
    rewrite He', He. split; reflexivity.
  - split; reflexivity.
Qed.

Lemma edit_refreshes_preview_witness :
  emitted
    (sleep 300
       (onDidChangeTextDocument (host := PlainHost.host)
          (markdown_document []) (create 0)))
  = [getMarkdownUri (host := PlainHost.host) readme]
  /\ emitted
       (sleep 300
          (onDidChangeTextDocument (host := PlainHost.host)
             preview_document (create 0)))
     = [].
Proof.
  split.
  - apply (edit_refreshes_preview (host := PlainHost.host)
             (markdown_document []) 0%N 300%N). lia.
  - apply (edit_refreshes_preview (host := PlainHost.host)
             preview_document 0%N 300%N). lia.
Defined.


(** X6: [showPreview] never returns without asking something of the host:
    it runs [markdown.showSource], alone, exactly when it is given no URI
    and no editor is active; otherwise its first action is the preview of
    the URI derived from the resource, which is the given URI when there is
    one and the active editor's document otherwise, and nothing but
    telemetry follows; the telemetry event is sent exactly when a reporter
    exists and a preview is among the actions. *)
Theorem showPreview_outcome {host : Host} (win : Window)
    (uri : option Uri.t) (sideBySide : bool) :
  showPreview win uri sideBySide <> []
  /\ (showPreview win uri sideBySide = [ExecuteCommand "markdown.showSource"]
      <-> uri = None /\ activeTextEditor win = None)
  /\ (forall resource,
        uri = Some resource
        \/ (uri = None
            /\ exists editor,
                 activeTextEditor win = Some editor
                 /\ TextDocument.uri (TextEditor.document editor) = resource) ->
        exists rest,
          showPreview win uri sideBySide
          = PreviewHtml (getMarkdownUri resource)
              (getViewColumn win sideBySide)
              ("Preview '" ++ path_basename (uri_fsPath resource) ++ "'")
            :: rest
          /\ forall a, In a rest ->
               exists name properties, a = SendTelemetryEvent name properties)
  /\ ((exists name properties,
         In (SendTelemetryEvent name properties)
            (showPreview win uri sideBySide))
      <-> telemetryReporter win = true
          /\ exists u column title,
               In (PreviewHtml u column title)
                  (showPreview win uri sideBySide)).
Proof.
  assert (Hshown : forall (resource : Uri.t) (how : string),
            let page :=
              PreviewHtml (getMarkdownUri resource)
                (getViewColumn win sideBySide)
                ("Preview '" ++ path_basename (uri_fsPath resource) ++ "'") in
            let event :=
              SendTelemetryEvent "openPreview"
                [("where", if sideBySide then "sideBySide" else "inPlace");
                 ("how", how)] in
            let actions :=
              page :: (if telemetryReporter win then [event] else []) in
            (forall a, In a (if telemetryReporter win then [event] else []) ->
               exists name properties, a = SendTelemetryEvent name properties)
            /\ ((exists name properties,
                   In (SendTelemetryEvent name properties) actions)
                <-> telemetryReporter win = true
                    /\ exists u column title,
                         In (PreviewHtml u column title) actions)).
  { intros resource how page event actions. subst actions. split.
    - destruct (telemetryReporter win); intros a Ha; [| destruct Ha].
      destruct Ha as [<- | []]. exists "openPreview". eexists. reflexivity.
    - assert (Hpage : exists u column title,
                 In (PreviewHtml u column title)
                    (page :: (if telemetryReporter win then [event] else [])))
        by (do 3 eexists; left; reflexivity).
      destruct (telemetryReporter win); split.
      + intros _. split; [reflexivity | exact Hpage].
      + intros _. exists "openPreview". eexists. right. left. reflexivity.
      + intros (name & properties & [H | []]). discriminate.
      + intros [H _]. discriminate. }
  unfold showPreview.
  destruct uri as [u |]; [| destruct (activeTextEditor win) as [ed |] eqn:Ea].
  - destruct (Hshown u "action") as (Hrest & Htel). cbv zeta in Hrest, Htel.
    split; [discriminate |]. split; [| split].
    + split; [| intros [H _]; discriminate].
      destruct (telemetryReporter win); discriminate.
    + intros resource [[= <-] | [H _]]; [| discriminate].
      eexists. split; [reflexivity | exact Hrest].
    + exact Htel.
  - destruct (Hshown (TextDocument.uri (TextEditor.document ed)) "pallete")
      as (Hrest & Htel). cbv zeta in Hrest, Htel.
    split; [discriminate |]. split; [| split].
    + split; [| intros [_ H]; discriminate].
      destruct (telemetryReporter win); discriminate.
    + intros resource [H | (_ & editor & [= <-] & <-)]; [discriminate |].
      eexists. split; [reflexivity | exact Hrest].
    + exact Htel.
  - split; [discriminate |]. split; [| split].
    + split; [intros _; split; reflexivity | reflexivity].
    + intros resource [H | (_ & editor & H & _)]; discriminate.
    + split.
      * intros (name & properties & [H | []]). discriminate.
      * intros (_ & u & column & title & [H | []]). discriminate.
Qed.

Lemma showPreview_outcome_witness :
  (exists rest,
     showPreview (host := PlainHost.host) window_with_reporter None false
     = PreviewHtml (getMarkdownUri (host := PlainHost.host) readme)
         (Some One) "Preview 'readme.md'"
       :: rest)
  /\ showPreview (host := PlainHost.host)
       (mkWindow None [] true) None false
     = [ExecuteCommand "markdown.showSource"].
Proof.
  split.
  - destruct (showPreview_outcome (host := PlainHost.host)
                window_with_reporter None false) as (_ & _ & Hshown & _).
    destruct (Hshown readme) as (rest & Hrest & _).
    + right. split; [reflexivity |]. exists readme_editor.
      split; reflexivity.
    + exists rest. exact Hrest.
  - apply (showPreview_outcome (host := PlainHost.host)
             (mkWindow None [] true) None false).
    split; reflexivity.
Defined.

(** X7: where the preview opens: in place it takes the column of the
    active editor; side by side it takes another column, and one that
    exists, unless the active editor is in the third column already. *)
Theorem preview_column {host : Host} (win : Window) (uri : option Uri.t)
    (sideBySide : bool) (active : TextEditor.t) (c : ViewColumn)
    (u : Uri.t) (column : option ViewColumn) (title : string) :
  activeTextEditor win = Some active ->
  TextEditor.viewColumn active = Some c ->
  In (PreviewHtml u column title) (showPreview win uri sideBySide) ->
  (sideBySide = false -> column = Some c)
  /\ (sideBySide = true -> c <> Three ->
      column <> Some c /\ column <> None)
  /\ (sideBySide = true -> c = Three -> column = Some Three).
Proof.
  intros Ha Hc Hin.
  assert (Hcol : column = getViewColumn win sideBySide).
  { unfold showPreview in Hin. rewrite Ha in Hin.
    destruct uri as [u' |]; cbn in Hin;
      destruct (telemetryReporter win); cbn in Hin;
      repeat (destruct Hin as [Hin | Hin]; try discriminate;
              try contradiction);
      congruence. }
  subst column. unfold getViewColumn. rewrite Ha, Hc.
  destruct sideBySide, c; cbn; repeat split; try discriminate;
    try reflexivity; try congruence.
Qed.

Lemma preview_column_witness :
  In (PreviewHtml (getMarkdownUri (host := PlainHost.host) readme)
        (Some Two) "Preview 'readme.md'")
     (showPreview (host := PlainHost.host) window_with_reporter None true)
  /\ Some Two <> Some One
  /\ Some Two <> (None : option ViewColumn).
Proof.
  assert (Hin : In (PreviewHtml (getMarkdownUri (host := PlainHost.host) readme)
                      (Some Two) "Preview 'readme.md'")
                   (showPreview (host := PlainHost.host)
                      window_with_reporter None true))
    by (left; reflexivity).
  split; [exact Hin |].
  destruct (preview_column (host := PlainHost.host) window_with_reporter
              None true readme_editor One _ (Some Two) _
              eq_refl eq_refl Hin) as (_ & H & _).
  apply H; [reflexivity | discriminate].
Defined.

(** X8: toggling back to the source reuses what is on screen: given a
    preview URI, [showSource] reveals a visible editor whose document URI
    prints like the URI parsed from the query, in that editor's column,
    whenever there is one, and opens the parsed URI only when there is
    none; called without a URI it navigates back. *)
Theorem showSource_outcome {host : Host} (win : Window) (mdUri : Uri.t) :
  showSource win None = [ExecuteCommand "workbench.action.navigateBack"]
  /\ ((exists editor,
         In editor (visibleTextEditors win)
         /\ uri_toString (TextDocument.uri (TextEditor.document editor))
            = uri_toString (docUri mdUri)) ->
      exists editor,
        In editor (visibleTextEditors win)
        /\ uri_toString (TextDocument.uri (TextEditor.document editor))
           = uri_toString (docUri mdUri)
        /\ showSource win (Some mdUri)
           = [ShowTextDocument (TextDocument.uri (TextEditor.document editor))
                (TextEditor.viewColumn editor)])
  /\ ((forall editor,
         In editor (visibleTextEditors win) ->
         uri_toString (TextDocument.uri (TextEditor.document editor))
         <> uri_toString (docUri mdUri)) ->
      showSource win (Some mdUri) = [OpenAndShowTextDocument (docUri mdUri)]).
Proof.
  split; [reflexivity |]. unfold showSource.
  destruct (find _ (visibleTextEditors win)) as [found |] eqn:Ef.
  - apply find_some in Ef as [Hin Heq]. apply String.eqb_eq in Heq. split.
    + intros _. exists found. auto.
    + intros Hnone. destruct (Hnone found Hin Heq).
  - split.
    + intros (editor & Hin & Heq).
      apply (find_none _ _ Ef) in Hin. cbn in Hin.
      rewrite Heq, String.eqb_refl in Hin. discriminate.
    + intros _. reflexivity.
Qed.

Lemma showSource_outcome_witness :
  exists editor,
    In editor [readme_editor]
    /\ showSource (host := PlainHost.host) window_with_reporter
         (Some (getMarkdownUri (host := PlainHost.host) readme))
       = [ShowTextDocument (TextDocument.uri (TextEditor.document editor))
            (TextEditor.viewColumn editor)].
Proof.
  destruct (showSource_outcome (host := PlainHost.host) window_with_reporter
              (getMarkdownUri (host := PlainHost.host) readme))
    as (_ & Hreuse & _).
  destruct Hreuse as (editor & Hin & _ & Hshow).
  - exists readme_editor. split; [left; reflexivity | reflexivity].
  - exists editor. split; [exact Hin | exact Hshow].
Defined.

End ExtensionMore.

(** ** More on front matter *)

Module FrontMatterMore.

Import RegExp FrontMatter FrontMatterProofs Stuck Samples.

Local Open Scope list_scope.

(** *** What is removed *)

Lemma after_newline_split (s r : text) :
  after_newline s = Some r -> exists pre, s = pre ++ LF :: r.
Proof.
  destruct s as [| c s]; [discriminate |]. cbn.
  destruct (N.eqb_spec c LF) as [-> | _].
  - intros [= ->]. exists []. reflexivity.
  - destruct (N.eqb_spec c CR) as [-> | _]; [| discriminate].
    destruct s as [| c' s]; [discriminate |].
    destruct (N.eqb_spec c' LF) as [-> | _]; [| discriminate].
    intros [= ->]. exists [CR]. reflexivity.
Qed.

Lemma skip_blanks_split (s : text) :
  exists pre, s = pre ++ skip_blanks s.
Proof.
  induction s as [| c s (pre & IH)]; [exists []; reflexivity |].
  cbn. destruct (blank c).
  - exists (c :: pre). cbn. now rewrite <- IH.
  - exists []. reflexivity.
Qed.

Lemma after_delimiter_line_split (s r : text) :
  after_delimiter_line s = Some r -> exists pre, s = pre ++ LF :: r.
Proof.
  unfold after_delimiter_line.
  destruct (after_dashes s) as [t |] eqn:Ed; [| discriminate].
  apply after_dashes_inv in Ed. intros Hn.
  destruct (skip_blanks_split t) as (ws & Hws).
  destruct (after_newline_split _ _ Hn) as (pre & Hpre).
  exists (DASH :: DASH :: DASH :: ws ++ pre).
  rewrite Ed, Hws at 1. rewrite Hpre. cbn. now rewrite <- app_assoc.
Qed.

Lemma after_closing_split (s r : text) :
  after_closing s = Some r -> exists pre, s = pre ++ LF :: r.
Proof.
  unfold after_closing.
  destruct (after_newline s) as [t |] eqn:En; [| discriminate].
  intros Hd. destruct (after_newline_split _ _ En) as (p1 & H1).
  destruct (after_delimiter_line_split _ _ Hd) as (p2 & H2).
  exists (p1 ++ LF :: p2). rewrite H1, H2, <- app_assoc. reflexivity.
Qed.

Lemma scan_split (r : text) :
  forall n s, (List.length s <= n)%nat ->
    scan s = Some r -> exists pre, s = pre ++ LF :: r.
Proof.
  induction n as [| n IH]; intros s Hn Hs.
  - destruct s; [discriminate | cbn in Hn; lia].
  - destruct s as [| c s]; [discriminate |]. cbn [scan] in Hs.
    destruct (after_closing (c :: s)) as [r' |] eqn:Ec.
    + injection Hs as ->. apply after_closing_split, Ec.
    + cbn in Hn.
      assert (Hstep : forall t, (List.length t <= n)%nat ->
                scan t = Some r -> exists pre, c :: t = pre ++ LF :: r).
      { intros t Ht Hst. destruct (IH t Ht Hst) as (pre & ->).
        exists (c :: pre). reflexivity. }
      destruct (negb (lineTerminator c)); [apply Hstep; [lia | exact Hs] |].
      destruct (c =? LF)%N; [apply Hstep; [lia | exact Hs] |].
      destruct (c =? CR)%N; [| discriminate].
      destruct s as [| c' s]; [discriminate |].
      destruct (c' =? LF)%N; [| discriminate].
      destruct (IH s) as (pre & ->); [cbn in Hn; lia | exact Hs |].
      exists (c :: c' :: pre). reflexivity.
Qed.

(** X9: the content that goes to the renderer is always the document's
    text from some line start on: what is cut off is a prefix of the text,
    it is empty unless the setting is [hide] and the text begins with three
    dashes, and when it is not empty it ends with a line feed. *)
Theorem preview_content_is_suffix (previewFrontMatter : string)
    (document : TextDocument.t) :
  exists removed,
    TextDocument.getText document
    = removed ++ getDocumentContentForPreview previewFrontMatter document
    /\ (removed = []
        \/ (previewFrontMatter = "hide"
            /\ firstn 3 (TextDocument.getText document) = [DASH; DASH; DASH]
            /\ exists block, removed = block ++ [LF])).
Proof.
  destruct (String.eqb_spec previewFrontMatter "hide") as [-> | Hne].
  - rewrite hide_is_strip. unfold strip.
    destruct (after_delimiter_line (TextDocument.getText document))
      as [s' |] eqn:Eo; [| exists []; auto].
    destruct (scan s') as [rest |] eqn:Es; [| exists []; auto].
    destruct (after_delimiter_line_split _ _ Eo) as (p1 & H1).
    destruct (scan_split rest _ s' (le_n _) Es) as (p2 & H2).
    exists (p1 ++ LF :: p2 ++ [LF]). split.
    + rewrite H1, H2. rewrite <- !app_assoc. cbn. rewrite <- app_assoc.
      reflexivity.
    + right. split; [reflexivity |]. split.
      * unfold after_delimiter_line in Eo.
        destruct (after_dashes _) as [t |] eqn:Ed; [| discriminate].
        apply after_dashes_inv in Ed. rewrite Ed. reflexivity.
      * exists (p1 ++ LF :: p2). rewrite <- app_assoc. reflexivity.
  - exists []. split; [| left; reflexivity].
    unfold getDocumentContentForPreview.
    apply String.eqb_neq in Hne. rewrite Hne. reflexivity.
Qed.

(** X10: under [hide], a text made of a delimiter line, one further line,
    any number of lines that are no delimiter lines, a delimiter line and a
    rest loses exactly these lines and is returned as the rest, further
    delimiter lines and all; here every one of these lines, the closing
    delimiter line too, ends with [\n] or with [\r\n], line by line, and
    holds no other line terminator (no bare carriage return, no U+2028, no
    U+2029). *)
Theorem front_matter_removed_through_delimiter (document : TextDocument.t)
    (o l c : line) (ls : list line) (rest : text) :
  TextDocument.getText document
  = line_units o ++ line_units l ++ flat_map line_units ls
    ++ line_units c ++ rest ->
  is_delimiter (content o) = true ->
  line_ok l = true ->
  forallb (fun l => line_ok l && negb (is_delimiter (content l))) ls = true ->
  is_delimiter (content c) = true ->
  getDocumentContentForPreview "hide" document = rest.
Proof.
  intros Htext Ho Hl Hls Hc.
  rewrite hide_is_strip, Htext. unfold strip.
  rewrite after_delimiter_line_units by exact Ho.
  now rewrite (scan_body c rest Hc ls l Hl Hls).
Qed.

(** A block with [\r\n] endings whose first line is three dashes again,
    before a text with a further delimiter line. *)
Lemma front_matter_removed_through_delimiter_witness :
  getDocumentContentForPreview "hide"
    (markdown_document
       (line_units (mkLine (units "--- ") EolCRLF)
        ++ line_units (mkLine (units "---") EolCRLF)
        ++ flat_map line_units [mkLine (units "title: x") EolLF]
        ++ line_units (mkLine (units "---") EolCRLF)
        ++ intro_rule_more))
  = intro_rule_more.
Proof.
  apply (front_matter_removed_through_delimiter _
           (mkLine (units "--- ") EolCRLF) (mkLine (units "---") EolCRLF)
           (mkLine (units "---") EolCRLF)
           [mkLine (units "title: x") EolLF] intro_rule_more);
    reflexivity.
Defined.


(** *** What the pattern cannot step over *)

Lemma stuck_not_newline (c : N) (post : text) :
  stuck c post = true -> after_newline (c :: post) = None.
Proof.
  unfold stuck. intros H. cbn.
  apply orb_true_iff in H as [H | H].
  - apply orb_true_iff in H as [H | H]; apply N.eqb_eq in H; subst;
      reflexivity.
  - apply andb_true_iff in H as [Hc Hp]. apply N.eqb_eq in Hc. subst c.
    change (CR =? LF)%N with false. change (CR =? CR)%N with true. cbn.
    destruct post as [| c' post]; [reflexivity |].
    apply negb_true_iff in Hp. now rewrite Hp.
Qed.

Lemma stuck_not_blank (c : N) (post : text) :
  stuck c post = true -> blank c = false.
Proof.
  unfold stuck. intros H.
  apply orb_true_iff in H as [H | H].
  - apply orb_true_iff in H as [H | H]; apply N.eqb_eq in H; subst;
      reflexivity.
  - apply andb_true_iff in H as [Hc _]. apply N.eqb_eq in Hc. subst c.
    reflexivity.
Qed.

Lemma stuck_not_dash (c : N) (post : text) :
  stuck c post = true -> c <> DASH.
Proof.
  unfold stuck. intros H.
  apply orb_true_iff in H as [H | H].
  - apply orb_true_iff in H as [H | H]; apply N.eqb_eq in H; subst;
      discriminate.
  - apply andb_true_iff in H as [Hc _]. apply N.eqb_eq in Hc. subst c.
    discriminate.
Qed.

Lemma stuck_terminator (c : N) (post : text) :
  stuck c post = true -> lineTerminator c = true.
Proof.
  unfold stuck. intros H.
  apply orb_true_iff in H as [H | H].
  - apply orb_true_iff in H as [H | H]; apply N.eqb_eq in H; subst;
      reflexivity.
  - apply andb_true_iff in H as [Hc _]. apply N.eqb_eq in Hc. subst c.
    reflexivity.
Qed.

Lemma scan_stuck (c : N) (post : text) :
  stuck c post = true -> scan (c :: post) = None.
Proof.
  intros H. cbn [scan]. unfold after_closing.
  rewrite (stuck_not_newline c post H), (stuck_terminator c post H).
  cbn [negb].
  pose proof (stuck_not_newline c post H) as Hn. cbn in Hn.
  destruct (c =? LF)%N; [discriminate |].
  destruct (c =? CR)%N; [| reflexivity].
  destruct post as [| c' post]; [reflexivity |].
  destruct (c' =? LF)%N; [discriminate | reflexivity].
Qed.

Lemma no_newline_before_stuck (ws : text) (c : N) (post : text) :
  forallb plain ws = true -> stuck c post = true ->
  after_newline (skip_blanks (ws ++ c :: post)) = None.
Proof.
  intros Hp Hs. induction ws as [| w ws IH]; cbn [app skip_blanks].
  - rewrite (stuck_not_blank c post Hs). apply stuck_not_newline, Hs.
  - cbn in Hp. apply andb_true_iff in Hp as [Hw Hws].
    destruct (blank w); [apply IH, Hws | apply plain_not_newline, Hw].
Qed.

(** An unfinished line that runs into such a code unit is no delimiter
    line. *)
Lemma after_delimiter_line_stuck (cs : text) (c : N) (post : text) :
  forallb plain cs = true -> stuck c post = true ->
  after_delimiter_line (cs ++ c :: post) = None.
Proof.
  intros Hp Hs.
  destruct (after_delimiter_line (cs ++ c :: post)) as [r |] eqn:E;
    [| reflexivity].
  exfalso. unfold after_delimiter_line in E.
  destruct (after_dashes _) as [t |] eqn:Ed; [| discriminate].
  apply after_dashes_inv in Ed.
  pose proof (stuck_not_dash c post Hs) as Hnd.
  destruct cs as [| d1 [| d2 [| d3 ws]]]; cbn [app] in Ed.
  - injection Ed as Ed _. contradiction.
  - injection Ed as _ Ed _. contradiction.
  - injection Ed as _ _ Ed _. contradiction.
  - injection Ed as _ _ _ <-. cbn in Hp.
    apply andb_true_iff in Hp as [_ Hp].
    apply andb_true_iff in Hp as [_ Hp].
    apply andb_true_iff in Hp as [_ Hp].
    rewrite (no_newline_before_stuck ws c post Hp Hs) in E. discriminate.
Qed.

Lemma scan_lines_stuck (cs : text) (c : N) (post : text) :
  forallb plain cs = true -> stuck c post = true ->
  forall (ls : list line) (l : line),
    line_ok l = true ->
    forallb (fun l => line_ok l && negb (is_delimiter (content l))) ls = true ->
    scan (line_units l ++ flat_map line_units ls ++ cs ++ c :: post) = None.
Proof.
  intros Hp Hs ls. induction ls as [| l' ls IH]; intros l Hok Hls.
  - rewrite scan_line by exact Hok. cbn [flat_map app].
    rewrite after_delimiter_line_stuck by assumption.
    rewrite scan_plain by exact Hp. apply scan_stuck, Hs.
  - cbn in Hls. apply andb_true_iff in Hls as [Hl' Hls].
    apply andb_true_iff in Hl' as [Hok' Hnd]. apply negb_true_iff in Hnd.
    rewrite scan_line by exact Hok. cbn [flat_map].
    rewrite <- app_assoc.
    rewrite after_delimiter_line_other by assumption.
    apply IH; assumption.
Qed.

(** X11: a bare carriage return (one that no line feed follows), a line
    separator U+2028 or a paragraph separator U+2029 before the closing
    delimiter line keeps the whole block in the preview: the pattern can
    step over none of them, so under [hide] the text is returned unchanged,
    whatever follows, a closing delimiter line included. *)
Theorem bare_terminator_keeps_block (document : TextDocument.t) (o : line)
    (ls : list line) (cs : text) (c : N) (post : text) :
  TextDocument.getText document
  = line_units o ++ flat_map line_units ls ++ cs ++ c :: post ->
  is_delimiter (content o) = true ->
  forallb (fun l => line_ok l && negb (is_delimiter (content l))) ls = true ->
  forallb plain cs = true ->
  stuck c post = true ->
  getDocumentContentForPreview "hide" document
  = TextDocument.getText document.
Proof.
  intros Htext Ho Hls Hp Hs.
  rewrite hide_is_strip, Htext. unfold strip.
  rewrite after_delimiter_line_units by exact Ho.
  destruct ls as [| l ls].
  - cbn [flat_map app]. rewrite scan_plain by exact Hp.
    now rewrite (scan_stuck c post Hs).
  - cbn in Hls. apply andb_true_iff in Hls as [Hl Hls].
    apply andb_true_iff in Hl as [Hok _]. cbn [flat_map].
    rewrite <- app_assoc.
    now rewrite (scan_lines_stuck cs c post Hp Hs ls l Hok Hls).
Qed.

(** [---], [a], a bare carriage return, [b], [---] and a heading. *)
Lemma bare_terminator_keeps_block_witness :
  let content :=
    line_units dashes ++ flat_map line_units [] ++ units "a"
    ++ CR :: (units "b" ++ [LF] ++ line_units dashes ++ heading) in
  getDocumentContentForPreview "hide" (markdown_document content) = content.
Proof.
  apply (bare_terminator_keeps_block
           (markdown_document
              (line_units dashes ++ flat_map line_units [] ++ units "a"
               ++ CR :: (units "b" ++ [LF] ++ line_units dashes ++ heading)))
           dashes [] (units "a") CR
           (units "b" ++ [LF] ++ line_units dashes ++ heading));
    reflexivity.
Defined.

End FrontMatterMore.

(** ** The page *)

Module PageProofs.

Import Extension ContentProvider Page FrontMatter FrontMatterProofs Samples.



(** X13: from a source document to its page: where the host's [parse]
    undoes its [toString] at [u] and [u] opens as [document], the page
    provided for the preview URI derived from [u] renders that document:
    its whole text when front matter is not hidden; and with [hide], when
    the text is a well-formed block with at least one line between its
    delimiter lines and a rest, the rest.  In such a block every line, the
    closing delimiter line too, ends with [\n] or [\r\n] and holds no
    other line terminator. *)
Theorem page_of_source {host : Host} {wb : Workbench}
    (rootPath : option string) (cfg : Configuration) (u : Uri.t)
    (document : TextDocument.t) :
  uri_parse (uri_toString u) = u ->
  openTextDocument u = Value document ->
  (String.eqb (previewFrontMatter cfg) "hide" = false ->
   provideTextDocumentContent rootPath cfg (getMarkdownUri u)
   = Value (head rootPath cfg (getMarkdownUri u) document
            ++ render (TextDocument.getText document) ++ tail))
  /\ (forall (b : block) (rest : text),
        previewFrontMatter cfg = "hide" ->
        TextDocument.getText document = (block_units b ++ rest)%list ->
        well_formed b = true -> body b <> [] ->
        provideTextDocumentContent rootPath cfg (getMarkdownUri u)
        = Value (head rootPath cfg (getMarkdownUri u) document
                 ++ render rest ++ tail)).
Proof.
  intros Hrt Hopen. unfold provideTextDocumentContent.
  change (Uri.query (getMarkdownUri u)) with (uri_toString u).
  rewrite Hrt, Hopen. split.
  - intros Hpf. now rewrite (other_setting_keeps_content _ document Hpf).
  - intros b rest -> Htext Hwf Hne.
    now rewrite (block_with_lines_is_stripped document b rest Htext Hwf Hne).
Qed.

Lemma page_of_source_witness :
  provideTextDocumentContent (host := PlainHost.host)
    (wb := PlainWorkbench.workbench) None PlainWorkbench.hide_configuration
    (getMarkdownUri (host := PlainHost.host) readme)
  = Value (head (host := PlainHost.host) (wb := PlainWorkbench.workbench)
             None PlainWorkbench.hide_configuration
             (getMarkdownUri (host := PlainHost.host) readme)
             PlainWorkbench.readme_document
           ++ "<p># T" ++ nl ++ "</p>" ++ tail).
Proof.
  destruct (page_of_source (host := PlainHost.host)
              (wb := PlainWorkbench.workbench) None
              PlainWorkbench.hide_configuration readme
              PlainWorkbench.readme_document eq_refl eq_refl) as (_ & H).
  apply (H titled_block heading); [reflexivity | reflexivity | reflexivity |].
  discriminate.
Defined.

Lemma fixHref_fixed {host : Host} (rootPath rootPath' : option string)
    (uri uri' : Uri.t) (style : string) :
  truthy style = false
  \/ truthy (Uri.scheme (uri_parse style)) = true
  \/ isAbsolute style = true ->
  fixHref rootPath uri style = fixHref rootPath' uri' style.
Proof.
  unfold fixHref. intros [H | [H | H]].
  - now rewrite H.
  - rewrite H. reflexivity.
  - rewrite H. destruct (truthy style); [| reflexivity].
    destruct (truthy (Uri.scheme (uri_parse style))); reflexivity.
Qed.

(** X14: only relative styles depend on where the preview runs: when
    every configured style is empty, a URL with a scheme or an absolute
    path, the stylesheet links are the same for every workspace root and
    every previewed resource; and without styles, or with [markdown.styles]
    no array, there are no links at all. *)
Theorem style_links_fixed {host : Host} {wb : Workbench}
    (cfg : Configuration) :
  (styles cfg = None \/ styles cfg = Some [] ->
   forall rootPath uri,
     computeCustomStyleSheetIncludes rootPath cfg uri = EmptyString)
  /\ (forall configured,
        styles cfg = Some configured ->
        Forall (fun style =>
                  truthy style = false
                  \/ truthy (Uri.scheme (uri_parse style)) = true
                  \/ isAbsolute style = true) configured ->
        forall rootPath uri rootPath' uri',
          computeCustomStyleSheetIncludes rootPath cfg uri
          = computeCustomStyleSheetIncludes rootPath' cfg uri').
Proof.
  unfold computeCustomStyleSheetIncludes. split.
  - intros [-> | ->]; reflexivity.
  - intros configured -> Hall rootPath uri rootPath' uri'.
    destruct (Nat.ltb 0 (List.length configured)); [| reflexivity].
    f_equal. apply map_ext_in. intros style Hin.
    unfold style_link.
    rewrite (fixHref_fixed rootPath rootPath' uri uri' style);
      [reflexivity |].
    rewrite Forall_forall in Hall. apply Hall, Hin.
Qed.

Lemma style_links_fixed_witness :
  computeCustomStyleSheetIncludes (host := PlainHost.host)
    (wb := PlainWorkbench.workbench) None PlainWorkbench.hide_configuration
    readme
  = computeCustomStyleSheetIncludes (host := PlainHost.host)
      (wb := PlainWorkbench.workbench) (Some "/ws")
      PlainWorkbench.hide_configuration u1.
Proof.
  apply (proj2 (style_links_fixed (host := PlainHost.host)
                  (wb := PlainWorkbench.workbench)
                  PlainWorkbench.hide_configuration)
           ["http://x/y.css"] eq_refl).
  constructor; [| constructor]. right. left. reflexivity.
Defined.

End PageProofs.
